(** * Verification of the Gemini chat relay

    A shallow embedding of the three source files of the repository:

    - [src/app/lib/gemini.tsx]   (module [Gemini]):   the relay formatter,
    - [src/app/api/chat/route.ts] (module [Route]):   the [POST /api/chat] handler,
    - the chat page component     (module [ChatPage]): the client's [sendMessage].

    JavaScript values that cross a boundary unchecked (a parsed request body,
    a parsed response body) are modelled as JSON values; values the code has
    validated or that it builds itself are modelled with records that follow
    the TypeScript interfaces.  Effects are explicit: the external provider is
    an oracle from calls to outcomes and every function that may invoke it
    returns the list of calls it made beside its result; an exception is the
    left injection of a sum. *)

From Stdlib Require Import String Ascii List ZArith QArith Bool Lia.
Import ListNotations.

Local Open Scope Z_scope.
Local Open Scope list_scope.

(* ================================================================== *)
(** * JavaScript values *)
(* ================================================================== *)

Module JS.

(** A value produced by [JSON.parse].  A number is the exact rational value of
    the double.  An object is the list of its own properties; a property is
    looked up by its first occurrence. *)
#[local] Unset Elimination Schemes.
Inductive JSON : Type :=
| JNull
| JBool (b : bool)
| JNum (q : Q)
| JStr (s : string)
| JArr (items : list JSON)
| JObj (fields : list (string * JSON)).
#[local] Set Elimination Schemes.

(** What a [throw] carries, as far as the handlers of this program look:
    [error instanceof Error] and, for an [Error], its [message]. *)
Inductive Thrown : Type :=
| ThrownError (message : string)
| ThrownOther.

(** The outcome of an expression that may throw. *)
Definition Outcome (A : Type) : Type := (Thrown + A)%type.

(** Texts that the JavaScript engine decides and the program never
    inspects. *)
Record Engine : Type := {
  (** [ToString] of a value that is not a string (a template literal applied
      to a number, a boolean, an array, an object); it throws a [TypeError]
      for an object that cannot be converted to a primitive. *)
  ToStringNonString : JSON -> Outcome string;
  (** The [TypeError] raised by destructuring [null]. *)
  destructureNull : Thrown
}.

Fixpoint assoc (k : string) (fields : list (string * JSON)) : option JSON :=
  match fields with
  | [] => None
  | (k', v) :: rest => if String.eqb k k' then Some v else assoc k rest
  end.

(** [v.k] for a non-null [v]; [None] is [undefined].  The keys this program
    reads exist on no prototype, so only own properties of objects count. *)
Definition getProp (v : JSON) (k : string) : option JSON :=
  match v with
  | JObj fields => assoc k fields
  | _ => None
  end.

(** [ToBoolean]. *)
Definition truthy (v : JSON) : bool :=
  match v with
  | JNull => false
  | JBool b => b
  | JNum q => negb (Qnum q =? 0)
  | JStr s => negb (String.eqb s "")
  | JArr _ => true
  | JObj _ => true
  end.

Definition truthy_opt (v : option JSON) : bool :=
  match v with
  | None => false
  | Some v => truthy v
  end.

(** [typeof v === 'string'], [typeof v === 'object'], [Array.isArray(v)]. *)
Definition typeof_string (v : option JSON) : bool :=
  match v with
  | Some (JStr _) => true
  | _ => false
  end.

Definition typeof_object (v : JSON) : bool :=
  match v with
  | JNull | JArr _ | JObj _ => true
  | _ => false
  end.

Definition isArray (v : JSON) : bool :=
  match v with
  | JArr _ => true
  | _ => false
  end.

(** [ToString], as a template literal applies it. *)
Definition ToString (eng : Engine) (v : JSON) : Outcome string :=
  match v with
  | JStr s => inr s
  | _ => ToStringNonString eng v
  end.

(** [Array.prototype.slice(start, end)]. *)
Definition slice {A : Type} (start end_ : Z) (l : list A) : list A :=
  let len := Z.of_nat (length l) in
  let k := if start <? 0 then Z.max (len + start) 0 else Z.min start len in
  let final := if end_ <? 0 then Z.max (len + end_) 0 else Z.min end_ len in
  firstn (Z.to_nat (final - k)) (skipn (Z.to_nat k) l).

(** The line feed of ["\n"]. *)
Definition LF : string := String (ascii_of_nat 10) EmptyString.

End JS.

(* ================================================================== *)
(** * [src/app/lib/gemini.tsx] *)
(* ================================================================== *)

Module Gemini.
Import JS.

Inductive Role : Type := user | assistant.

Definition Role_eqb (a b : Role) : bool :=
  match a, b with
  | user, user | assistant, assistant => true
  | _, _ => false
  end.

(** [interface MessageHistory]. *)
Record MessageHistory : Type := {
  role : Role;
  content : string
}.

Inductive GeminiRole : Type := guser | model.

(** One element of [parts].  The text of the system prompt's part is the
    value the caller passed, which the route does not validate. *)
Record Part : Type := { text : JSON }.

(** [interface GeminiMessage]. *)
Record GeminiMessage : Type := {
  grole : GeminiRole;
  parts : list Part
}.

(** [interface GenerationConfig]; every field is optional. *)
Record GenerationConfig : Type := {
  temperature : option Q;
  topK : option Z;
  topP : option Q;
  maxOutputTokens : option Z
}.

(** The argument of [genAI.getGenerativeModel]. *)
Record ModelParams : Type := {
  modelName : string;
  modelGenerationConfig : option GenerationConfig
}.

(** The argument of [model.startChat]. *)
Record StartChatParams : Type := {
  history : list GeminiMessage;
  generationConfig : option GenerationConfig
}.

(** A request to the provider: [model.generateContent(prompt)], or
    [model.startChat(params).sendMessage(message)]. *)
Inductive ProviderCall : Type :=
| generateContent (m : ModelParams) (prompt : string)
| startChat_sendMessage (m : ModelParams) (p : StartChatParams) (message : string).

(** The provider: the text of the reply, or what it threw ([generateContent],
    [sendMessage], [result.response] and [response.text()] all sit in the
    same [try]). *)
Definition Provider : Type := ProviderCall -> Outcome string.

(** The generation parameters a call carries: those given to [startChat],
    else those given to [getGenerativeModel]. *)
Definition call_generationConfig (c : ProviderCall) : option GenerationConfig :=
  match c with
  | generateContent m _ => modelGenerationConfig m
  | startChat_sendMessage m p _ =>
      match generationConfig p with
      | Some g => Some g
      | None => modelGenerationConfig m
      end
  end.

Definition is_stateful_call (c : ProviderCall) : bool :=
  match c with
  | generateContent _ _ => false
  | startChat_sendMessage _ _ _ => true
  end.

Definition acknowledgement : string :=
  "I understand. I'll maintain context from our conversation and provide helpful responses.".

Definition failureMessage : string := "Failed to get response from Gemini".

(** The element function of [history.slice(0, -1).map(...)]. *)
Definition toGeminiMessage (msg : MessageHistory) : GeminiMessage :=
  {| grole := if Role_eqb (role msg) assistant then model else guser;
     parts := [ {| text := JStr (content msg) |} ] |}.

(** The [try] block of [getGeminiResponse]: the calls made and the outcome.
    [systemPrompt] is [JNull] for [null]. *)
Definition getGeminiResponse_try (eng : Engine) (provider : Provider)
    (message : string) (history_ : list MessageHistory) (systemPrompt : JSON)
  : list ProviderCall * Outcome string :=
  let model_ := {| modelName := "gemini-2.0-flash";
                   modelGenerationConfig := None |} in
  if (0 <? length history_)%nat then
    let chatHistory := map toGeminiMessage (slice 0 (-1) history_) in
    let initialHistory :=
      if truthy systemPrompt then
        {| grole := guser; parts := [ {| text := systemPrompt |} ] |}
        :: {| grole := model; parts := [ {| text := JStr acknowledgement |} ] |}
        :: chatHistory
      else chatHistory in
    let generationConfig_ :=
      {| temperature := Some (7 # 10)%Q;
         topK := Some 40;
         topP := Some (95 # 100)%Q;
         maxOutputTokens := Some 1024 |} in
    let call := startChat_sendMessage model_
                  {| history := initialHistory;
                     generationConfig := Some generationConfig_ |}
                  message in
    ([call], provider call)
  else
    let prompt : Outcome string :=
      if truthy systemPrompt then
        match ToString eng systemPrompt with
        | inl e => inl e
        | inr s => inr (s ++ LF ++ LF ++ "User: " ++ message)%string
        end
      else inr message in
    match prompt with
    | inl e => ([], inl e)
    | inr p =>
        let call := generateContent model_ p in
        ([call], provider call)
    end.

(** [getGeminiResponse]: whatever the [try] block throws is replaced by a
    fresh [Error]. *)
Definition getGeminiResponse (eng : Engine) (provider : Provider)
    (message : string) (history_ : list MessageHistory) (systemPrompt : JSON)
  : list ProviderCall * Outcome string :=
  let '(calls, r) := getGeminiResponse_try eng provider message history_ systemPrompt in
  (calls,
   match r with
   | inl _ => inl (ThrownError failureMessage)
   | inr t => inr t
   end).

(** The callback of [history.forEach] in [getGeminiResponseWithContext]: the
    prompt so far, extended by one line. *)
Definition appendContextLine (contextPrompt : string) (msg : MessageHistory) : string :=
  let role_ : string :=
    if Role_eqb (role msg) assistant then "Assistant"%string else "User"%string in
  (contextPrompt ++ (role_ ++ ": " ++ content msg ++ LF))%string.

(** The [try] block of [getGeminiResponseWithContext]: [contextPrompt] is
    built by successive [+=]. *)
Definition getGeminiResponseWithContext_try (eng : Engine) (provider : Provider)
    (message : string) (history_ : list MessageHistory) (systemPrompt : JSON)
  : list ProviderCall * Outcome string :=
  let model_ := {| modelName := "gemini-pro";
                   modelGenerationConfig := None |} in
  let contextPrompt : Outcome string :=
    if truthy systemPrompt then
      match ToString eng systemPrompt with
      | inl e => inl e
      | inr s => inr (EmptyString ++ (s ++ LF ++ LF))%string
      end
    else inr EmptyString in
  match contextPrompt with
  | inl e => ([], inl e)
  | inr contextPrompt =>
      let contextPrompt :=
        if (0 <? length history_)%nat then
          let contextPrompt :=
            (contextPrompt ++ ("Previous conversation:" ++ LF))%string in
          let contextPrompt := fold_left appendContextLine history_ contextPrompt in
          (contextPrompt ++ LF)%string
        else contextPrompt in
      let contextPrompt :=
        (contextPrompt ++ ("User: " ++ message ++ LF ++ "Assistant:"))%string in
      let call := generateContent model_ contextPrompt in
      ([call], provider call)
  end.

(** [getGeminiResponseWithContext]. *)
Definition getGeminiResponseWithContext (eng : Engine) (provider : Provider)
    (message : string) (history_ : list MessageHistory) (systemPrompt : JSON)
  : list ProviderCall * Outcome string :=
  let '(calls, r) :=
    getGeminiResponseWithContext_try eng provider message history_ systemPrompt in
  (calls,
   match r with
   | inl _ => inl (ThrownError failureMessage)
   | inr t => inr t
   end).

End Gemini.

(* ================================================================== *)
(** * [src/app/api/chat/route.ts] *)
(* ================================================================== *)

Module Route.
Import JS.

(** The outcome of [req.json()]: the parsed body, or what the parser threw. *)
Definition Request : Type := Outcome JSON.

(** [ChatResponse | ErrorResponse]. *)
Inductive ResponseBody : Type :=
| ReplyBody (reply : string)
| ErrorBody (error : string).

(** A [NextResponse.json(body, { status })]; the status defaults to 200. *)
Record Response : Type := {
  status : Z;
  body : ResponseBody
}.

Definition invalidMessage : Response :=
  {| status := 400; body := ErrorBody "Message is required and must be a string" |}.

Definition invalidHistoryType : Response :=
  {| status := 400; body := ErrorBody "History must be an array" |}.

Definition invalidHistoryItem : Response :=
  {| status := 400; body := ErrorBody "Invalid history format" |}.

(** The callback of [history.every]: the five conjuncts, in order.  On
    success it yields the entry as [getGeminiResponse] reads it (its [role]
    and [content]; other properties are never read). *)
Definition historyItem (item : JSON) : option Gemini.MessageHistory :=
  if typeof_object item then
    match item with
    | JNull => None
    | _ =>
        match getProp item "role" with
        | Some (JStr r) =>
            if String.eqb r "user" || String.eqb r "assistant" then
              match getProp item "content" with
              | Some (JStr c) =>
                  Some {| Gemini.role :=
                            if String.eqb r "assistant"
                            then Gemini.assistant else Gemini.user;
                          Gemini.content := c |}
              | _ => None
              end
            else None
        | _ => None
        end
    end
  else None.

Definition isValidHistoryItem (item : JSON) : bool :=
  match historyItem item with
  | Some _ => true
  | None => false
  end.

(** The validated entries of an array, as typed values. *)
Fixpoint historyItems (items : list JSON) : list Gemini.MessageHistory :=
  match items with
  | [] => []
  | item :: rest =>
      match historyItem item with
      | Some m => m :: historyItems rest
      | None => historyItems rest
      end
  end.

(** Readers of a value whose shape the preceding checks have established. *)
Definition asString (v : option JSON) : string :=
  match v with
  | Some (JStr s) => s
  | _ => EmptyString
  end.

Definition arrayItems (v : JSON) : list JSON :=
  match v with
  | JArr items => items
  | _ => []
  end.

(** The [try] block of [POST]: the provider calls made, and the response
    returned or the value thrown. *)
Definition POST_try (eng : Engine) (provider : Gemini.Provider) (req : Request)
  : list Gemini.ProviderCall * Outcome Response :=
  match req with
  | inl e => ([], inl e)
  | inr JNull => ([], inl (destructureNull eng))
  | inr body_ =>
      let message := getProp body_ "message" in
      let history :=
        match getProp body_ "history" with
        | None => JArr []
        | Some h => h
        end in
      let systemPrompt := getProp body_ "systemPrompt" in
      if negb (truthy_opt message) || negb (typeof_string message) then
        ([], inr invalidMessage)
      else if truthy history && negb (isArray history) then
        ([], inr invalidHistoryType)
      else if truthy history && (0 <? length (arrayItems history))%nat
              && negb (forallb isValidHistoryItem (arrayItems history)) then
        ([], inr invalidHistoryItem)
      else
        (* [message] is a string; [history] is an array of valid entries, or
           a falsy value, which [getGeminiResponse] treats as no history *)
        let '(calls, r) :=
          Gemini.getGeminiResponse eng provider (asString message)
            (historyItems (arrayItems history))
            (match systemPrompt with
             | None => JNull
             | Some sp => sp
             end) in
        (calls,
         match r with
         | inl e => inl e
         | inr reply => inr {| status := 200; body := ReplyBody reply |}
         end)
  end.

(** The [catch] block of [POST]. *)
Definition POST_catch (error : Thrown) : Response :=
  match error with
  | ThrownError message => {| status := 500; body := ErrorBody message |}
  | ThrownOther => {| status := 500; body := ErrorBody "An unexpected error occurred" |}
  end.

(** [POST]: the provider calls made and the response returned. *)
Definition POST (eng : Engine) (provider : Gemini.Provider) (req : Request)
  : list Gemini.ProviderCall * Response :=
  let '(calls, r) := POST_try eng provider req in
  (calls,
   match r with
   | inr resp => resp
   | inl error => POST_catch error
   end).

End Route.

(* ================================================================== *)
(** * The chat page: [sendMessage] *)
(* ================================================================== *)

Module ChatPage.
Import JS.

Inductive Role : Type := user | assistant.

Definition Role_eqb (a b : Role) : bool :=
  match a, b with
  | user, user | assistant, assistant => true
  | _, _ => false
  end.

(** [interface Message].  [text] is declared a string; an assistant turn holds
    whatever the [reply] property of the response held. *)
Record Message : Type := {
  role : Role;
  text : JSON;
  timestamp : string;
  isError : option bool
}.

(** [interface FormattedHistoryMessage]. *)
Record FormattedHistoryMessage : Type := {
  hrole : Role;
  content : JSON
}.

(** The component state that [sendMessage] reads and writes. *)
Record State : Type := {
  messages : list Message;
  input : string;
  isLoading : bool
}.

(** [String.prototype.trim] on code units below 256: the white space and line
    terminators there are TAB, LF, VT, FF, CR, SP and NBSP. *)
Definition isWhiteSpace (c : ascii) : bool :=
  let n := nat_of_ascii c in
  ((n =? 9) || (n =? 10) || (n =? 11) || (n =? 12) || (n =? 13)
   || (n =? 32) || (n =? 160))%nat.

Fixpoint trimStart (s : string) : string :=
  match s with
  | EmptyString => EmptyString
  | String c rest => if isWhiteSpace c then trimStart rest else s
  end.

Definition reverse (s : string) : string :=
  string_of_list_ascii (rev (list_ascii_of_string s)).

Definition trimEnd (s : string) : string := reverse (trimStart (reverse s)).

Definition trim (s : string) : string := trimEnd (trimStart s).

Definition systemPrompt : string :=
  "You are a helpful AI assistant created by Uzair. Always respond helpfully, and maintain context from earlier messages in this chat. If someone asks Who made you? or anything similar, respond with: I was made by Uzair.".

Definition errorText : string :=
  "Sorry, there was an error processing your request. Please try again.".

Definition roleName (r : Role) : string :=
  match r with
  | user => "user"
  | assistant => "assistant"
  end.

(** The element function of [messages.map(...)]. *)
Definition formatMessage (msg : Message) : FormattedHistoryMessage :=
  {| hrole := if Role_eqb (role msg) assistant then assistant else user;
     content := text msg |}.

(** The value that [JSON.stringify] writes and the server's parser reads
    back. *)
Definition historyEntry (h : FormattedHistoryMessage) : JSON :=
  JObj [ ("role", JStr (roleName (hrole h))); ("content", content h) ]%string.

Definition requestBody (currentInput : string)
    (formattedHistory : list FormattedHistoryMessage) : JSON :=
  JObj [ ("message", JStr currentInput);
         ("history", JArr (map historyEntry formattedHistory));
         ("systemPrompt", JStr systemPrompt) ]%string.

(** How [await fetch(...)] settles: rejected, or a response with its status
    and the outcome of [res.json()] ([None] when it rejects).  The [catch]
    block only logs what was thrown, so a throw carries nothing here. *)
Inductive FetchResult : Type :=
| FetchRejected
| FetchResponse (status : Z) (json : option JSON).

(** [res.ok]. *)
Definition ok (status : Z) : bool := (200 <=? status) && (status <=? 299).

(** ['k' in v]: a [TypeError] ([None]) on a primitive. *)
Definition hasProperty (k : string) (v : JSON) : option bool :=
  match v with
  | JObj fields => Some (existsb (fun kv => String.eqb k (fst kv)) fields)
  | JArr _ => Some false
  | _ => None
  end.

(** [sendMessage] up to its first [await]: [None] when the guard returns,
    else the state after the three setters and the body handed to [fetch].
    [now] is [new Date().toISOString()]. *)
Definition sendMessage_begin (now : string) (st : State) : option (State * JSON) :=
  if negb (truthy (JStr (trim (input st)))) || isLoading st then None
  else
    let userMessage :=
      {| role := user; text := JStr (trim (input st));
         timestamp := now; isError := None |} in
    let currentInput := trim (input st) in
    let formattedHistory :=
      map formatMessage (messages st)
      ++ [ {| hrole := user; content := JStr currentInput |} ] in
    Some ({| messages := messages st ++ [userMessage];
             input := EmptyString;
             isLoading := true |},
          requestBody currentInput formattedHistory).

(** The rest of the [try] block: the assistant turn, or [None] for a throw. *)
Definition sendMessage_try (now : string) (res : FetchResult) : option Message :=
  match res with
  | FetchRejected => None
  | FetchResponse status json =>
      if negb (ok status) then None
      else
        match json with
        | None => None
        | Some data =>
            match hasProperty "error" data with
            | None => None
            | Some true => None
            | Some false =>
                match getProp data "reply" with
                | Some reply =>
                    if negb (truthy reply) then None
                    else Some {| role := assistant; text := reply;
                                 timestamp := now; isError := None |}
                | None => None
                end
            end
        end
  end.

(** The [try]/[catch]/[finally] after the [await], on the state of that
    moment. *)
Definition sendMessage_settle (now : string) (res : FetchResult) (st : State) : State :=
  let appended :=
    match sendMessage_try now res with
    | Some botMessage => botMessage
    | None =>
        {| role := assistant; text := JStr errorText;
           timestamp := now; isError := Some true |}
    end in
  {| messages := messages st ++ [appended];
     input := input st;
     isLoading := false |}.

(** One run of [sendMessage]: [fetch] answers the body it is given; [now1]
    and [now2] are the two readings of the clock. *)
Definition sendMessage (now1 now2 : string) (fetch : JSON -> FetchResult)
    (st : State) : State :=
  match sendMessage_begin now1 st with
  | None => st
  | Some (st', body) => sendMessage_settle now2 (fetch body) st'
  end.

(** [setInput(value)], the [onChange] of the text area. *)
Definition setInput (value : string) (st : State) : State :=
  {| messages := messages st; input := value; isLoading := isLoading st |}.

(** [clearChat]. *)
Definition clearChat (st : State) : State :=
  {| messages := []; input := input st; isLoading := isLoading st |}.

(** The [disabled] attribute of the send button. *)
Definition sendDisabled (st : State) : bool :=
  negb (truthy (JStr (trim (input st)))) || isLoading st.

(** [toggleTheme]. *)
Definition toggleTheme (isDarkMode : bool) : bool := negb isDarkMode.

(** The effect that loads the theme on mount: [savedTheme] is
    [localStorage.getItem('chat-theme')] ([None] for [null]) and [prefersDark]
    is the match of the media query; the result is the argument of
    [setIsDarkMode]. *)
Definition loadTheme (savedTheme : option string) (prefersDark : bool) : bool :=
  match savedTheme with
  | Some saved =>
      if String.eqb saved "dark" then true
      else if String.eqb saved "light" then false
      else prefersDark
  | None => prefersDark
  end.

(** The effect that saves the theme: the value written under
    ['chat-theme']. *)
Definition savedThemeOf (isDarkMode : bool) : string :=
  if isDarkMode then "dark"%string else "light"%string.

End ChatPage.

(* ================================================================== *)
(** * Sample inputs *)
(* ================================================================== *)

Module Samples.
Import JS.

Definition engine : Engine :=
  {| ToStringNonString := fun _ => inr "[object Object]"%string;
     destructureNull :=
       ThrownError "Cannot destructure property 'message' of 'body' as it is null." |}.

Definition answering : Gemini.Provider := fun _ => inr "Hello!"%string.

Definition failing : Gemini.Provider :=
  fun _ => inl (ThrownError "429 Too Many Requests").

Definition u1 : Gemini.MessageHistory :=
  {| Gemini.role := Gemini.user; Gemini.content := "What is Rocq?" |}.

Definition a1 : Gemini.MessageHistory :=
  {| Gemini.role := Gemini.assistant; Gemini.content := "A proof assistant." |}.

Definition u2 : Gemini.MessageHistory :=
  {| Gemini.role := Gemini.user; Gemini.content := "Who made you?" |}.

Definition typing (s : string) : ChatPage.State :=
  {| ChatPage.messages := []; ChatPage.input := s; ChatPage.isLoading := false |}.

End Samples.

(* ================================================================== *)
(** * Definitions used by the statements *)
(* ================================================================== *)

Module GeminiSpec.
Import JS Gemini.

Local Open Scope string_scope.

(** The model handle of every call. *)
Definition flash : ModelParams :=
  {| modelName := "gemini-2.0-flash"; modelGenerationConfig := None |}.

(** The generation parameters that the specification fixes. *)
Definition fixedConfig : GenerationConfig :=
  {| temperature := Some (7 # 10)%Q;
     topK := Some 40;
     topP := Some (95 # 100)%Q;
     maxOutputTokens := Some 1024 |}.

(** The seed history that claim C2 describes, in the specification's words:
    the entries but the last with their roles renamed, after the synthetic
    pair when a system prompt is supplied. *)
Definition seedHistory (h : list MessageHistory) (systemPrompt : JSON)
  : list GeminiMessage :=
  (if truthy systemPrompt then
     [ {| grole := guser; parts := [ {| text := systemPrompt |} ] |};
       {| grole := model; parts := [ {| text := JStr acknowledgement |} ] |} ]
   else [])
  ++ map (fun e => {| grole := match role e with
                               | assistant => model
                               | user => guser
                               end;
                      parts := [ {| text := JStr (content e) |} ] |})
         (removelast h).

End GeminiSpec.

Module RouteSpec.
Import JS Gemini Route.

Local Open Scope string_scope.

(** [POST] on a body that parsed to a non-null value, rule by rule. *)
Definition POST_parsed (eng : Engine) (provider : Provider) (body_ : JSON)
  : list ProviderCall * Response :=
  let message := getProp body_ "message" in
  let history :=
    match getProp body_ "history" with
    | None => JArr []
    | Some h => h
    end in
  if negb (truthy_opt message) || negb (typeof_string message) then
    ([], invalidMessage)
  else if truthy history && negb (isArray history) then
    ([], invalidHistoryType)
  else if truthy history && (0 <? length (arrayItems history))%nat
          && negb (forallb isValidHistoryItem (arrayItems history)) then
    ([], invalidHistoryItem)
  else
    let r := getGeminiResponse eng provider (asString message)
               (historyItems (arrayItems history))
               (match getProp body_ "systemPrompt" with
                | None => JNull
                | Some sp => sp
                end) in
    (fst r,
     match snd r with
     | inl e => POST_catch e
     | inr reply => {| status := 200; body := ReplyBody reply |}
     end).

(** Rule 1 in the words of the amended claim C4: the [message] property is
    absent, is not a string, or is the empty string. *)
Definition messageMissing (body_ : JSON) : Prop :=
  match getProp body_ "message" with
  | None => True
  | Some (JStr s) => s = ""
  | Some _ => True
  end.

End RouteSpec.

Module ChatSpec.
Import JS ChatPage.

Local Open Scope string_scope.

(** The turn recorded for the user's submission. *)
Definition userTurn (now : string) (st : State) : Message :=
  {| role := user; text := JStr (trim (input st));
     timestamp := now; isError := None |}.

(** The synthetic turn recorded for a failed dispatch. *)
Definition errorTurn (now : string) : Message :=
  {| role := assistant; text := JStr errorText;
     timestamp := now; isError := Some true |}.

(** The failures of a dispatch that claim C7 lists: the network call is
    rejected, the status is not 2xx, the body does not parse, the body
    carries an [error] property, or it carries no [reply] property. *)
Inductive DispatchFailure : FetchResult -> Prop :=
| NetworkRejection :
    DispatchFailure FetchRejected
| Non2xxStatus status json :
    status < 200 \/ 299 < status ->
    DispatchFailure (FetchResponse status json)
| MalformedBody status :
    DispatchFailure (FetchResponse status None)
| ErrorField status fields v :
    assoc "error" fields = Some v ->
    DispatchFailure (FetchResponse status (Some (JObj fields)))
| MissingReply status fields :
    assoc "reply" fields = None ->
    DispatchFailure (FetchResponse status (Some (JObj fields))).

End ChatSpec.

Module RoundTripSpec.
Import JS Gemini Route.

(** A stored turn as the provider is to see it. *)
Definition providerTurn (msg : ChatPage.Message) : GeminiMessage :=
  {| grole := match ChatPage.role msg with
              | ChatPage.assistant => model
              | ChatPage.user => guser
              end;
     parts := [ {| text := ChatPage.text msg |} ] |}.

(** The entry of the typed history that a stored turn with a string text
    becomes on the server. *)
Definition serverEntry (msg : ChatPage.Message) : MessageHistory :=
  {| role := match ChatPage.role msg with
             | ChatPage.assistant => assistant
             | ChatPage.user => user
             end;
     content := asString (Some (ChatPage.text msg)) |}.

End RoundTripSpec.

Module ContextSpec.
Import JS Gemini.

Local Open Scope string_scope.

(** The model handle of [getGeminiResponseWithContext]. *)
Definition pro : ModelParams :=
  {| modelName := "gemini-pro"; modelGenerationConfig := None |}.

(** One line of the transcript: the speaker, a colon, the content. *)
Definition contextLine (e : MessageHistory) : string :=
  match role e with
  | assistant => "Assistant"
  | user => "User"
  end ++ ": " ++ content e ++ LF.

(** The context prompt in closed form: the preamble, the transcript of the
    whole history when there is one, and the new message. *)
Definition contextPromptOf (preamble : string) (h : list MessageHistory)
    (m : string) : string :=
  preamble
  ++ match h with
     | [] => ""
     | _ :: _ =>
         "Previous conversation:" ++ LF
         ++ String.concat "" (map contextLine h) ++ LF
     end
  ++ "User: " ++ m ++ LF ++ "Assistant:".

(** The preamble that a typed system prompt contributes. *)
Definition preambleOf (systemPrompt : option string) : string :=
  match systemPrompt with
  | None => ""
  | Some s => if String.eqb s "" then "" else s ++ LF ++ LF
  end.

Definition promptValue (systemPrompt : option string) : JSON :=
  match systemPrompt with
  | None => JNull
  | Some s => JStr s
  end.

End ContextSpec.

Module SessionSpec.
Import JS ChatPage.

(** What can happen to the page between two renders, a request running to
    its end before anything else happens. *)
Inductive Action : Type :=
| Typing (value : string)
| Submit (now1 now2 : string) (fetch : JSON -> FetchResult)
| Clear.

Definition act (st : State) (a : Action) : State :=
  match a with
  | Typing value => setInput value st
  | Submit now1 now2 fetch => sendMessage now1 now2 fetch st
  | Clear => clearChat st
  end.

Definition run (actions : list Action) (st : State) : State :=
  fold_left act actions st.

(** The state of a freshly mounted page. *)
Definition mounted : State :=
  {| messages := []; input := EmptyString; isLoading := false |}.

(** A session of exchanges: a user turn, then an assistant turn, and so on
    to the end. *)
Fixpoint exchanges (msgs : list Message) : bool :=
  match msgs with
  | [] => true
  | u :: a :: rest =>
      Role_eqb (role u) user && Role_eqb (role a) assistant && exchanges rest
  | _ :: [] => false
  end.

End SessionSpec.

Module TransportSpec.
Import JS Gemini Route.

Local Open Scope string_scope.

(** The JSON that [NextResponse.json] writes for a body and [res.json()]
    reads back. *)
Definition responseJSON (b : ResponseBody) : JSON :=
  match b with
  | ReplyBody reply => JObj [ ("reply", JStr reply) ]
  | ErrorBody error => JObj [ ("error", JStr error) ]
  end.

(** [fetch("/api/chat", ...)] answered by [POST]: the body written by
    [JSON.stringify] is the value the route parses, and the response written
    by the route is the value the page parses. *)
Definition fetchRoute (eng : Engine) (provider : Provider) (body_ : JSON)
  : ChatPage.FetchResult :=
  let resp := snd (POST eng provider (inr body_)) in
  ChatPage.FetchResponse (status resp) (Some (responseJSON (body resp))).

(** The call that the page's request makes the route place. *)
Definition pageCall (st : ChatPage.State) : ProviderCall :=
  startChat_sendMessage GeminiSpec.flash
    {| history :=
         {| grole := guser; parts := [ {| text := JStr ChatPage.systemPrompt |} ] |}
         :: {| grole := model; parts := [ {| text := JStr acknowledgement |} ] |}
         :: map RoundTripSpec.providerTurn (ChatPage.messages st);
       generationConfig := Some GeminiSpec.fixedConfig |}
    (ChatPage.trim (ChatPage.input st)).

End TransportSpec.

(* ================================================================== *)
(** * Facts about the JavaScript operations *)
(* ================================================================== *)

Module JSFacts.
Import JS.

Lemma slice_drop_last {A : Type} (l : list A) :
  slice 0 (-1) l = removelast l.
Proof.
  unfold slice. cbn [Z.ltb Z.compare].
  assert (Hk : Z.to_nat (Z.min 0 (Z.of_nat (length l))) = 0%nat) by lia.
  rewrite Hk. cbn [skipn].
  rewrite removelast_firstn_len. f_equal. lia.
Qed.

Lemma length_slice_drop_last {A : Type} (l : list A) :
  length (slice 0 (-1) l) = pred (length l).
Proof.
  rewrite slice_drop_last, removelast_firstn_len, length_firstn. lia.
Qed.

Lemma truthy_JStr (s : string) :
  truthy (JStr s) = true <-> s <> EmptyString.
Proof.
  cbn. destruct (String.eqb_spec s ""); cbn; split; congruence.
Qed.

Lemma truthy_JStr_nonempty (s : string) :
  s <> EmptyString -> truthy (JStr s) = true.
Proof. apply truthy_JStr. Qed.

End JSFacts.

(* ================================================================== *)
(** * The relay formatter *)
(* ================================================================== *)

Module GeminiFacts.
Import JS JSFacts Gemini GeminiSpec.

Local Open Scope string_scope.

Lemma toGeminiMessage_spec (e : MessageHistory) :
  toGeminiMessage e =
  {| grole := match role e with assistant => model | user => guser end;
     parts := [ {| text := JStr (content e) |} ] |}.
Proof. destruct e as [[] c]; reflexivity. Qed.

Lemma nonempty_length {A : Type} (l : list A) :
  l <> [] -> (0 <? length l)%nat = true.
Proof. destruct l; [congruence | reflexivity]. Qed.

(** The multi-turn path makes one stateful call, whatever the provider
    answers. *)
Lemma multi_turn_calls eng provider m h sp :
  h <> [] ->
  fst (getGeminiResponse eng provider m h sp) =
  [ startChat_sendMessage flash
      {| history := seedHistory h sp; generationConfig := Some fixedConfig |} m ].
Proof.
  intros Hne. unfold getGeminiResponse, getGeminiResponse_try.
  rewrite (nonempty_length h Hne). cbn [fst].
  unfold seedHistory. rewrite slice_drop_last.
  rewrite (map_ext _ _ toGeminiMessage_spec).
  destruct (truthy sp); reflexivity.
Qed.

(** The single-turn path with a string prompt makes one stateless call. *)
Lemma single_turn_calls eng provider m s :
  fst (getGeminiResponse eng provider m [] (JStr s)) =
  [ generateContent flash
      (if truthy (JStr s) then s ++ LF ++ LF ++ "User: " ++ m else m) ].
Proof.
  unfold getGeminiResponse, getGeminiResponse_try. cbn [length Nat.ltb Nat.leb ToString].
  destruct (truthy (JStr s)); reflexivity.
Qed.

Lemma single_turn_calls_null eng provider m :
  fst (getGeminiResponse eng provider m [] JNull) = [ generateContent flash m ].
Proof. reflexivity. Qed.

(** C1, as stated, fails: with history [[]], message ["hi"] and system prompt
    ["X"] the prompt handed to the provider carries the label ["User: "]
    between the blank line and the message. *)
Lemma C1_prompt_counterexample :
  fst (getGeminiResponse Samples.engine Samples.answering "hi" [] (JStr "X"))
  = [ generateContent flash ("X" ++ LF ++ LF ++ "User: hi") ]
  /\ "X" ++ LF ++ LF ++ "User: hi" <> "X" ++ LF ++ LF ++ "hi".
Proof. split; [reflexivity | discriminate]. Qed.

(** C1 (amended): with an empty history and a non-empty system prompt [s] the
    provider receives exactly one call, the single-shot [generateContent],
    whose prompt is [s], a blank line, the label ["User: "] and the message;
    with a [null] or an empty system prompt the prompt is the message itself.
    No stateful multi-turn call is made in any of the three cases. *)
Theorem C1_single_turn_prompt eng provider (m s : string) :
  s <> "" ->
  fst (getGeminiResponse eng provider m [] (JStr s))
    = [ generateContent flash (s ++ LF ++ LF ++ "User: " ++ m) ]
  /\ fst (getGeminiResponse eng provider m [] JNull) = [ generateContent flash m ]
  /\ fst (getGeminiResponse eng provider m [] (JStr "")) = [ generateContent flash m ]
  /\ forall sp, existsb is_stateful_call
                  (fst (getGeminiResponse eng provider m [] sp)) = false.
Proof.
  intros Hs. repeat split.
  - rewrite single_turn_calls, (truthy_JStr_nonempty s Hs). reflexivity.
  - intros sp. unfold getGeminiResponse, getGeminiResponse_try.
    cbn [length Nat.ltb Nat.leb].
    destruct (truthy sp); [destruct (ToString eng sp) |]; reflexivity.
Qed.

Lemma C1_single_turn_prompt_witness :
  fst (getGeminiResponse Samples.engine Samples.answering "hi" [] (JStr "X"))
    = [ generateContent flash ("X" ++ LF ++ LF ++ "User: hi") ]
  /\ fst (getGeminiResponse Samples.engine Samples.answering "hi" [] JNull)
     = [ generateContent flash "hi" ]
  /\ fst (getGeminiResponse Samples.engine Samples.answering "hi" [] (JStr ""))
     = [ generateContent flash "hi" ]
  /\ forall sp, existsb is_stateful_call
                  (fst (getGeminiResponse Samples.engine Samples.answering "hi" [] sp))
                = false.
Proof.
  apply (C1_single_turn_prompt Samples.engine Samples.answering "hi" "X").
  discriminate.
Defined.

(** C2: for a non-empty history [h] the provider receives exactly one call,
    the stateful [startChat(...).sendMessage(message)], seeded with the
    entries of [h] but the last, roles renamed ([assistant] to [model],
    [user] to [user]) and contents unchanged, after the synthetic user turn
    (the system prompt) and model turn (the acknowledgement) exactly when the
    system prompt is truthy; the seed has [length h - 1] entries without a
    system prompt and [length h + 1] with one. *)
Theorem C2_multi_turn_seed eng provider (m : string)
    (h : list MessageHistory) (sp : JSON) :
  h <> [] ->
  fst (getGeminiResponse eng provider m h sp)
    = [ startChat_sendMessage flash
          {| history := seedHistory h sp; generationConfig := Some fixedConfig |}
          m ]
  /\ length (seedHistory h sp)
     = (if truthy sp then length h + 1 else length h - 1)%nat
  /\ skipn (if truthy sp then 2 else 0) (seedHistory h sp)
     = map toGeminiMessage (removelast h).
Proof.
  intros Hne. split; [apply multi_turn_calls, Hne |].
  unfold seedHistory.
  rewrite <- (map_ext _ _ toGeminiMessage_spec).
  assert (Hlen : length (removelast h) = pred (length h)).
  { rewrite removelast_firstn_len, length_firstn. lia. }
  assert (Hpos : (0 < length h)%nat) by (destruct h; [congruence | cbn; lia]).
  destruct (truthy sp); cbn [app skipn length]; rewrite ?length_map, Hlen;
    split; (lia || reflexivity).
Qed.

Lemma C2_multi_turn_seed_witness :
  fst (getGeminiResponse Samples.engine Samples.answering "Who made you?"
         [Samples.u1; Samples.a1; Samples.u2] (JStr "Be helpful."))
    = [ startChat_sendMessage flash
          {| history :=
               seedHistory [Samples.u1; Samples.a1; Samples.u2] (JStr "Be helpful.");
             generationConfig := Some fixedConfig |}
          "Who made you?" ]
  /\ length (seedHistory [Samples.u1; Samples.a1; Samples.u2] (JStr "Be helpful."))
     = 4%nat
  /\ skipn 2 (seedHistory [Samples.u1; Samples.a1; Samples.u2] (JStr "Be helpful."))
     = map toGeminiMessage [Samples.u1; Samples.a1].
Proof.
  apply (C2_multi_turn_seed Samples.engine Samples.answering "Who made you?"
           [Samples.u1; Samples.a1; Samples.u2] (JStr "Be helpful.")).
  discriminate.
Defined.

(** C3, evaluated on the code: a call of the multi-turn path carries the
    fixed generation parameters, and the call of the single-turn path (here
    with no system prompt) carries none. *)
Theorem C3_generation_config_by_path eng provider (m : string)
    (e : MessageHistory) (h : list MessageHistory) (sp : JSON) :
  map call_generationConfig (fst (getGeminiResponse eng provider m (e :: h) sp))
    = [ Some fixedConfig ]
  /\ map call_generationConfig (fst (getGeminiResponse eng provider m [] JNull))
     = [ None ].
Proof.
  split; [| reflexivity].
  rewrite multi_turn_calls by discriminate. reflexivity.
Qed.

(** No call of the single-turn path carries generation parameters, whatever
    the system prompt. *)
Lemma single_turn_no_config eng provider (m : string) (sp : JSON) :
  forallb (fun c => match call_generationConfig c with
                    | None => true
                    | Some _ => false
                    end)
          (fst (getGeminiResponse eng provider m [] sp)) = true.
Proof.
  unfold getGeminiResponse, getGeminiResponse_try. cbn [length Nat.ltb Nat.leb].
  destruct (truthy sp); [destruct (ToString eng sp) |]; reflexivity.
Qed.

(** Every throw of the [try] block leaves [getGeminiResponse] as the one
    generic [Error]. *)
Lemma getGeminiResponse_throws eng provider m h sp e :
  snd (getGeminiResponse eng provider m h sp) = inl e ->
  e = ThrownError failureMessage.
Proof.
  unfold getGeminiResponse.
  destruct (getGeminiResponse_try eng provider m h sp) as [calls [t | t]];
    cbn; congruence.
Qed.

(** The outcome is the provider's on the call made. *)
Lemma getGeminiResponse_outcome eng provider m h sp call :
  fst (getGeminiResponse eng provider m h sp) = [call] ->
  snd (getGeminiResponse eng provider m h sp)
  = match provider call with
    | inl _ => inl (ThrownError failureMessage)
    | inr t => inr t
    end.
Proof.
  unfold getGeminiResponse, getGeminiResponse_try.
  destruct (0 <? length h)%nat.
  - cbn. intros [= <-]. reflexivity.
  - destruct (truthy sp); [destruct (ToString eng sp) |]; cbn;
      try discriminate; intros [= <-]; reflexivity.
Qed.

(** At most one call is made. *)
Lemma getGeminiResponse_calls eng provider m h sp :
  fst (getGeminiResponse eng provider m h sp) = []
  \/ exists call, fst (getGeminiResponse eng provider m h sp) = [call].
Proof.
  unfold getGeminiResponse, getGeminiResponse_try.
  destruct (0 <? length h)%nat; [right; eexists; reflexivity |].
  destruct (truthy sp); [destruct (ToString eng sp) |]; cbn;
    (left; reflexivity) || (right; eexists; reflexivity).
Qed.

End GeminiFacts.

(* ================================================================== *)
(** * The route *)
(* ================================================================== *)

Module RouteFacts.
Import JS JSFacts Gemini GeminiSpec GeminiFacts Route RouteSpec.

Local Open Scope string_scope.

Lemma POST_catch_500 (e : Thrown) :
  exists message, POST_catch e = {| status := 500; body := ErrorBody message |}.
Proof. destruct e; eexists; reflexivity. Qed.

Lemma POST_unfold eng provider (req : Request) :
  POST eng provider req =
  match req with
  | inl e => ([], POST_catch e)
  | inr JNull => ([], POST_catch (destructureNull eng))
  | inr body_ => POST_parsed eng provider body_
  end.
Proof.
  unfold POST, POST_try, POST_parsed.
  destruct req as [e | b]; [reflexivity |].
  destruct b; try reflexivity;
    repeat match goal with
           | |- context [if ?c then _ else _] => destruct c
           | |- context [getGeminiResponse ?a ?b ?c ?d ?e] =>
               destruct (getGeminiResponse a b c d e) as [calls [t | t]]
           end; reflexivity.
Qed.

Lemma POST_catch_not_400 (e : Thrown) (r : Response) :
  status r = 400 -> POST_catch e <> r.
Proof. intros Hr <-. destruct e; discriminate Hr. Qed.

(** Rule 1 decides [POST_parsed]'s first answer. *)
Lemma rule1_guard (b : JSON) :
  negb (truthy_opt (getProp b "message")) || negb (typeof_string (getProp b "message"))
  = true <-> messageMissing b.
Proof.
  unfold messageMissing.
  destruct (getProp b "message") as [[| x | q | s | l | f] |]; cbn;
    try tauto.
  - destruct x; tauto.
  - destruct (Qnum q =? 0)%Z; cbn; tauto.
  - destruct (String.eqb_spec s ""); cbn; split; congruence.
Qed.

Lemma POST_parsed_invalidMessage eng provider (b : JSON) :
  snd (POST_parsed eng provider b) = invalidMessage <-> messageMissing b.
Proof.
  rewrite <- rule1_guard. unfold POST_parsed.
  destruct (negb (truthy_opt (getProp b "message"))
            || negb (typeof_string (getProp b "message"))).
  - cbn. tauto.
  - split; [| discriminate].
    repeat match goal with
           | |- context [if ?c then _ else _] => destruct c
           end; cbn [snd]; try discriminate.
    destruct (snd (getGeminiResponse _ _ _ _ _)) as [e | t]; [| discriminate].
    intros H. exfalso. exact (POST_catch_not_400 e invalidMessage eq_refl H).
Qed.

(** C4, as stated, fails: a body whose [message] is the empty string carries
    a string, yet it is answered 400 by rule 1. *)
Lemma C4_empty_message_counterexample :
  typeof_string (getProp (JObj [("message", JStr "")]) "message") = true
  /\ POST Samples.engine Samples.answering (inr (JObj [("message", JStr "")]))
     = ([], invalidMessage).
Proof. split; reflexivity. Qed.

(** C4 (amended): [POST] answers 400 with the error text "Message is required
    and must be a string" if and only if the body parsed to a value other
    than [null] whose [message] is absent, is not a string, or is the empty
    string; so every request whose [message] is a non-empty string passes
    rule 1 and gets another answer. *)
Theorem C4_invalid_message_iff eng provider (req : Request) :
  snd (POST eng provider req) = invalidMessage
  <-> exists b, req = inr b /\ b <> JNull /\ messageMissing b.
Proof.
  rewrite POST_unfold. destruct req as [e | b].
  - split.
    + intros H. exfalso. exact (POST_catch_not_400 e invalidMessage eq_refl H).
    + intros (b & Hb & _). discriminate Hb.
  - assert (Hgen : b <> JNull ->
              (snd (POST_parsed eng provider b) = invalidMessage
               <-> exists b', @inr Thrown JSON b = inr b' /\ b' <> JNull /\ messageMissing b')).
    { intros Hb. rewrite POST_parsed_invalidMessage. split.
      - intros H. exists b. auto.
      - intros (b' & [= <-] & _ & H). exact H. }
    destruct b; try (apply Hgen; discriminate).
    split.
    + intros H. exfalso.
      exact (POST_catch_not_400 (destructureNull eng) invalidMessage eq_refl H).
    + intros (b' & [= <-] & Hb & _). congruence.
Qed.

(** C5, as stated, fails: a [history] that is present and is the boolean
    [false] is not an array, yet the request passes rule 2, the provider is
    invoked and the answer is 200. *)
Lemma C5_falsy_history_counterexample :
  getProp (JObj [("message", JStr "hi"); ("history", JBool false)]) "history"
    = Some (JBool false)
  /\ isArray (JBool false) = false
  /\ POST Samples.engine Samples.answering
       (inr (JObj [("message", JStr "hi"); ("history", JBool false)]))
     = ([ generateContent flash "hi" ],
        {| status := 200; body := ReplyBody "Hello!" |}).
Proof. repeat split. Qed.

(** C5 (amended): for every request whose [message] is a non-empty string and
    whose [history] is present, truthy (not [null], [false], [0] or the empty
    string) and not an array, [POST] answers 400 with the error text "History
    must be an array" and the provider is not invoked. *)
Theorem C5_history_not_array eng provider (b : JSON) (m : string) (h : JSON) :
  getProp b "message" = Some (JStr m) ->
  m <> "" ->
  getProp b "history" = Some h ->
  truthy h = true ->
  isArray h = false ->
  POST eng provider (inr b) = ([], invalidHistoryType).
Proof.
  intros Hm Hne Hh Ht Ha. rewrite POST_unfold.
  destruct b; try discriminate Hm.
  unfold POST_parsed. rewrite Hm, Hh. cbn [truthy_opt typeof_string negb orb].
  rewrite (truthy_JStr_nonempty m Hne), Ht, Ha. reflexivity.
Qed.

Lemma C5_history_not_array_witness :
  POST Samples.engine Samples.answering
    (inr (JObj [("message", JStr "hi"); ("history", JStr "[]")]))
  = ([], invalidHistoryType).
Proof.
  apply (C5_history_not_array Samples.engine Samples.answering
           (JObj [("message", JStr "hi"); ("history", JStr "[]")])
           "hi" (JStr "[]"));
    solve [ reflexivity | discriminate ].
Defined.

(** C10: a request whose body does not parse is answered with status 500 and
    an error body, and the provider is not invoked. *)
Theorem C10_unparseable_body eng provider (e : Thrown) :
  exists message,
    POST eng provider (inl e)
    = ([], {| status := 500; body := ErrorBody message |}).
Proof.
  rewrite POST_unfold. destruct (POST_catch_500 e) as [message ->].
  exists message. reflexivity.
Qed.

(** What passes rule 3 reaches [getGeminiResponse] entry for entry. *)
Lemma historyItems_length (items : list JSON) :
  forallb isValidHistoryItem items = true ->
  length (historyItems items) = length items.
Proof.
  induction items as [| item rest IH]; [reflexivity |].
  cbn [forallb historyItems]. unfold isValidHistoryItem at 1.
  destruct (historyItem item); cbn; [| discriminate].
  intros H. f_equal. exact (IH H).
Qed.

(** C6: when the provider throws on the call it receives, whether the
    single-shot or the multi-turn one, [getGeminiResponse] throws an [Error]
    whose message is "Failed to get response from Gemini", and [POST] answers
    500 with that message as its error text: not a 400, not a 200. *)
Theorem C6_provider_failure eng provider (call : ProviderCall) (e : Thrown) :
  provider call = inl e ->
  (forall m h sp,
     fst (getGeminiResponse eng provider m h sp) = [call] ->
     snd (getGeminiResponse eng provider m h sp) = inl (ThrownError failureMessage))
  /\ (forall req,
        fst (POST eng provider req) = [call] ->
        snd (POST eng provider req)
        = {| status := 500; body := ErrorBody failureMessage |}).
Proof.
  intros He.
  assert (Hg : forall m h sp,
             fst (getGeminiResponse eng provider m h sp) = [call] ->
             snd (getGeminiResponse eng provider m h sp)
             = inl (ThrownError failureMessage)).
  { intros m h sp Hc. rewrite (getGeminiResponse_outcome _ _ _ _ _ _ Hc), He.
    reflexivity. }
  split; [exact Hg |].
  intros req. rewrite POST_unfold.
  destruct req as [t | b]; [discriminate |].
  assert (Hp : fst (POST_parsed eng provider b) = [call] ->
               snd (POST_parsed eng provider b)
               = {| status := 500; body := ErrorBody failureMessage |}).
  { unfold POST_parsed.
    repeat match goal with
           | |- context [if ?c then _ else _] => destruct c
           end; cbn [fst snd]; try discriminate.
    intros Hc. rewrite (Hg _ _ _ Hc). reflexivity. }
  destruct b; try exact Hp. discriminate.
Qed.

Lemma C6_provider_failure_witness :
  (snd (getGeminiResponse Samples.engine Samples.failing "hi" [] JNull)
   = inl (ThrownError failureMessage)
   /\ snd (getGeminiResponse Samples.engine Samples.failing "Who made you?"
             [Samples.u1; Samples.a1; Samples.u2] JNull)
      = inl (ThrownError failureMessage))
  /\ snd (POST Samples.engine Samples.failing (inr (JObj [("message", JStr "hi")])))
     = {| status := 500; body := ErrorBody failureMessage |}.
Proof.
  split; [split |].
  - apply (C6_provider_failure Samples.engine Samples.failing
             (generateContent flash "hi") (ThrownError "429 Too Many Requests")
             eq_refl).
    reflexivity.
  - apply (C6_provider_failure Samples.engine Samples.failing
             (startChat_sendMessage flash
                {| history := seedHistory [Samples.u1; Samples.a1; Samples.u2] JNull;
                   generationConfig := Some fixedConfig |}
                "Who made you?")
             (ThrownError "429 Too Many Requests") eq_refl).
    reflexivity.
  - apply (C6_provider_failure Samples.engine Samples.failing
             (generateContent flash "hi") (ThrownError "429 Too Many Requests")
             eq_refl).
    reflexivity.
Defined.

End RouteFacts.

(* ================================================================== *)
(** * The conversation store *)
(* ================================================================== *)

Module ChatFacts.
Import JS JSFacts ChatPage ChatSpec.

Local Open Scope string_scope.
Local Open Scope list_scope.

Lemma hasProperty_assoc (k : string) (fields : list (string * JSON)) :
  existsb (fun kv => String.eqb k (fst kv)) fields
  = match assoc k fields with
    | Some _ => true
    | None => false
    end.
Proof.
  induction fields as [| [k' v] rest IH]; [reflexivity |].
  cbn. destruct (String.eqb k k'); [reflexivity | exact IH].
Qed.

(** The guard of [sendMessage]. *)
Lemma sendMessage_begin_rejects now st :
  trim (input st) = "" \/ isLoading st = true ->
  sendMessage_begin now st = None.
Proof.
  unfold sendMessage_begin. intros [H | H]; rewrite H.
  - reflexivity.
  - rewrite orb_true_r. reflexivity.
Qed.

Lemma sendMessage_begin_accepts now st :
  trim (input st) <> "" ->
  isLoading st = false ->
  sendMessage_begin now st
  = Some ({| messages := messages st ++ [userTurn now st];
             input := "";
             isLoading := true |},
          requestBody (trim (input st))
            (map formatMessage (messages st)
             ++ [ {| hrole := user; content := JStr (trim (input st)) |} ])).
Proof.
  intros Hne Hl. unfold sendMessage_begin.
  rewrite (truthy_JStr_nonempty _ Hne), Hl. reflexivity.
Qed.

Lemma sendMessage_begin_inv now st st' body :
  sendMessage_begin now st = Some (st', body) ->
  trim (input st) <> "" /\ isLoading st = false
  /\ messages st' = messages st ++ [userTurn now st].
Proof.
  unfold sendMessage_begin.
  destruct (truthy (JStr (trim (input st)))) eqn:Ht; [| discriminate].
  destruct (isLoading st); [discriminate |]. cbn.
  intros [= <- _]. repeat split. apply truthy_JStr, Ht.
Qed.

(** A failed dispatch leaves the [try] block by a throw. *)
Lemma sendMessage_try_fails now res :
  DispatchFailure res -> sendMessage_try now res = None.
Proof.
  intros H. destruct H as [| status json Hs | status | status fields v Hv | status fields Hr];
    cbn [sendMessage_try]; try reflexivity.
  - assert (Hok : ok status = false) by (unfold ok; lia). rewrite Hok. reflexivity.
  - destruct (ok status); reflexivity.
  - destruct (ok status); [| reflexivity]. cbn [negb hasProperty].
    rewrite hasProperty_assoc, Hv. reflexivity.
  - destruct (ok status); [| reflexivity]. cbn [negb hasProperty getProp].
    rewrite Hr. destruct (existsb _ fields); reflexivity.
Qed.

(** A throw in the [try] block appends the error turn to what was recorded. *)
Lemma sendMessage_thrown now1 now2 fetch st st' body :
  sendMessage_begin now1 st = Some (st', body) ->
  sendMessage_try now2 (fetch body) = None ->
  messages (sendMessage now1 now2 fetch st)
  = messages st ++ [userTurn now1 st; errorTurn now2].
Proof.
  intros Hb Ht. unfold sendMessage. rewrite Hb.
  unfold sendMessage_settle. rewrite Ht. cbn [messages].
  destruct (sendMessage_begin_inv _ _ _ _ Hb) as (_ & _ & ->).
  rewrite <- app_assoc. reflexivity.
Qed.

(** A response that is ok, carries no [error] and a truthy [reply] appends
    the assistant's turn with that reply. *)
Lemma sendMessage_success now1 now2 fetch st st' body status fields reply :
  sendMessage_begin now1 st = Some (st', body) ->
  fetch body = FetchResponse status (Some (JObj fields)) ->
  ok status = true ->
  assoc "error" fields = None ->
  assoc "reply" fields = Some reply ->
  truthy reply = true ->
  messages (sendMessage now1 now2 fetch st)
  = messages st
    ++ [ userTurn now1 st;
         {| role := assistant; text := reply; timestamp := now2; isError := None |} ].
Proof.
  intros Hb Hf Hok He Hr Ht. unfold sendMessage. rewrite Hb.
  unfold sendMessage_settle, sendMessage_try. rewrite Hf, Hok.
  cbn [negb hasProperty getProp]. rewrite hasProperty_assoc, He, Hr, Ht.
  cbn [negb messages].
  destruct (sendMessage_begin_inv _ _ _ _ Hb) as (_ & _ & ->).
  rewrite <- app_assoc. reflexivity.
Qed.

(** A falsy [reply] makes the [try] block throw. *)
Lemma sendMessage_try_falsy_reply now status fields reply :
  assoc "reply" fields = Some reply ->
  truthy reply = false ->
  sendMessage_try now (FetchResponse status (Some (JObj fields))) = None.
Proof.
  intros Hr Ht. cbn [sendMessage_try].
  destruct (ok status); [| reflexivity]. cbn [negb hasProperty getProp].
  rewrite Hr, Ht. destruct (existsb _ fields); reflexivity.
Qed.

(** C7: when the dispatch fails (the network call is rejected, the status is
    not 2xx, the body does not parse, the body carries an [error] property or
    lacks the [reply] property), [sendMessage] leaves the session as it was
    followed by the user's turn and one assistant turn with [isError] true
    and the fixed text: two turns more, the stored ones untouched. *)
Theorem C7_failed_dispatch now1 now2 fetch st st' body :
  sendMessage_begin now1 st = Some (st', body) ->
  DispatchFailure (fetch body) ->
  messages (sendMessage now1 now2 fetch st)
    = messages st
      ++ [ {| role := user; text := JStr (trim (input st));
              timestamp := now1; isError := None |};
           {| role := assistant;
              text := JStr "Sorry, there was an error processing your request. Please try again.";
              timestamp := now2; isError := Some true |} ]
  /\ length (messages (sendMessage now1 now2 fetch st))
     = (length (messages st) + 2)%nat
  /\ firstn (length (messages st)) (messages (sendMessage now1 now2 fetch st))
     = messages st.
Proof.
  intros Hb Hf.
  pose proof (sendMessage_thrown now1 now2 fetch st st' body Hb
                (sendMessage_try_fails now2 _ Hf)) as ->.
  repeat split.
  - rewrite length_app. reflexivity.
  - rewrite firstn_app, firstn_all, Nat.sub_diag. cbn [firstn].
    apply app_nil_r.
Qed.

Lemma C7_failed_dispatch_witness :
  messages (sendMessage "2025-01-01T00:00:00.000Z" "2025-01-01T00:00:01.000Z"
              (fun _ => FetchResponse 500
                          (Some (JObj [("error", JStr "Failed to get response from Gemini")])))
              (Samples.typing "  hello "))
    = [ {| role := user; text := JStr "hello";
           timestamp := "2025-01-01T00:00:00.000Z"; isError := None |};
        {| role := assistant;
           text := JStr "Sorry, there was an error processing your request. Please try again.";
           timestamp := "2025-01-01T00:00:01.000Z"; isError := Some true |} ]
  /\ length (messages (sendMessage "2025-01-01T00:00:00.000Z" "2025-01-01T00:00:01.000Z"
                         (fun _ => FetchResponse 500
                                     (Some (JObj [("error", JStr "Failed to get response from Gemini")])))
                         (Samples.typing "  hello ")))
     = 2%nat
  /\ firstn 0 (messages (sendMessage "2025-01-01T00:00:00.000Z" "2025-01-01T00:00:01.000Z"
                           (fun _ => FetchResponse 500
                                       (Some (JObj [("error", JStr "Failed to get response from Gemini")])))
                           (Samples.typing "  hello ")))
     = [].
Proof.
  eapply (C7_failed_dispatch "2025-01-01T00:00:00.000Z" "2025-01-01T00:00:01.000Z"
            (fun _ => FetchResponse 500
                        (Some (JObj [("error", JStr "Failed to get response from Gemini")])))
            (Samples.typing "  hello ")).
  - reflexivity.
  - apply Non2xxStatus. right. reflexivity.
Defined.

(** C8: [sendMessage] returns at once, the session unchanged, when the
    trimmed input is empty or a request is in flight; otherwise, before the
    request is answered, the session is the former one followed by one user
    turn whose text is the trimmed input: one turn longer. *)
Theorem C8_submission_guard now1 now2 fetch st :
  (trim (input st) = "" \/ isLoading st = true ->
   sendMessage_begin now1 st = None
   /\ sendMessage now1 now2 fetch st = st)
  /\ (trim (input st) <> "" ->
      isLoading st = false ->
      exists st' body,
        sendMessage_begin now1 st = Some (st', body)
        /\ messages st'
           = messages st
             ++ [ {| role := user; text := JStr (trim (input st));
                     timestamp := now1; isError := None |} ]
        /\ length (messages st') = S (length (messages st))
        /\ isLoading st' = true).
Proof.
  split.
  - intros H. pose proof (sendMessage_begin_rejects now1 st H) as Hb.
    split; [exact Hb |]. unfold sendMessage. rewrite Hb. reflexivity.
  - intros Hne Hl. do 2 eexists.
    split; [apply (sendMessage_begin_accepts now1 st Hne Hl) |].
    cbn [messages isLoading]. rewrite length_app. cbn [length].
    repeat split. apply Nat.add_1_r.
Qed.

Lemma C8_submission_guard_witness :
  (sendMessage_begin "2025-01-01T00:00:00.000Z" (Samples.typing "   ") = None
   /\ sendMessage "2025-01-01T00:00:00.000Z" "2025-01-01T00:00:01.000Z"
        (fun _ => FetchRejected) (Samples.typing "   ")
      = Samples.typing "   ")
  /\ exists st' body,
       sendMessage_begin "2025-01-01T00:00:00.000Z" (Samples.typing "  hello ")
       = Some (st', body)
       /\ messages st'
          = [ {| role := user; text := JStr "hello";
                 timestamp := "2025-01-01T00:00:00.000Z"; isError := None |} ]
       /\ length (messages st') = 1%nat
       /\ isLoading st' = true.
Proof.
  split.
  - apply (C8_submission_guard "2025-01-01T00:00:00.000Z" "2025-01-01T00:00:01.000Z"
             (fun _ => FetchRejected) (Samples.typing "   ")).
    left. reflexivity.
  - apply (C8_submission_guard "2025-01-01T00:00:00.000Z" "2025-01-01T00:00:01.000Z"
             (fun _ => FetchRejected) (Samples.typing "  hello ")).
    + discriminate.
    + reflexivity.
Defined.

(** C9: a response with status 200 whose body is [{reply: ""}] is a failure
    for the client: [sendMessage] records the error turn, not an assistant
    turn holding the empty reply; and so does every ok response whose [reply]
    is falsy. *)
Theorem C9_empty_reply_is_failure now1 now2 fetch st st' body :
  sendMessage_begin now1 st = Some (st', body) ->
  (fetch body = FetchResponse 200 (Some (JObj [("reply", JStr "")])) ->
   messages (sendMessage now1 now2 fetch st)
   = messages st
     ++ [ {| role := user; text := JStr (trim (input st));
             timestamp := now1; isError := None |};
          {| role := assistant;
             text := JStr "Sorry, there was an error processing your request. Please try again.";
             timestamp := now2; isError := Some true |} ])
  /\ (forall status fields reply,
        fetch body = FetchResponse status (Some (JObj fields)) ->
        assoc "reply" fields = Some reply ->
        truthy reply = false ->
        messages (sendMessage now1 now2 fetch st)
        = messages st ++ [userTurn now1 st; errorTurn now2]).
Proof.
  intros Hb.
  assert (Hgen : forall status fields reply,
             fetch body = FetchResponse status (Some (JObj fields)) ->
             assoc "reply" fields = Some reply ->
             truthy reply = false ->
             messages (sendMessage now1 now2 fetch st)
             = messages st ++ [userTurn now1 st; errorTurn now2]).
  { intros status fields reply Hf Hr Ht.
    apply (sendMessage_thrown now1 now2 fetch st st' body Hb).
    rewrite Hf. exact (sendMessage_try_falsy_reply now2 status fields reply Hr Ht). }
  split; [| exact Hgen].
  intros Hf. exact (Hgen 200 _ (JStr "") Hf eq_refl eq_refl).
Qed.

Lemma C9_empty_reply_is_failure_witness :
  messages (sendMessage "2025-01-01T00:00:00.000Z" "2025-01-01T00:00:01.000Z"
              (fun _ => FetchResponse 200 (Some (JObj [("reply", JStr "")])))
              (Samples.typing "  hello "))
  = [ {| role := user; text := JStr "hello";
         timestamp := "2025-01-01T00:00:00.000Z"; isError := None |};
      {| role := assistant;
         text := JStr "Sorry, there was an error processing your request. Please try again.";
         timestamp := "2025-01-01T00:00:01.000Z"; isError := Some true |} ].
Proof.
  eapply (proj1 (C9_empty_reply_is_failure
                   "2025-01-01T00:00:00.000Z" "2025-01-01T00:00:01.000Z"
                   (fun _ => FetchResponse 200 (Some (JObj [("reply", JStr "")])))
                   (Samples.typing "  hello ") _ _ eq_refl)).
  reflexivity.
Defined.

(** The history the page sends ends with the new message, so dropping its
    last entry leaves one entry per stored turn. *)
Lemma sent_history_drops_to_session (msgs : list Message) (currentInput : string) :
  removelast (map formatMessage msgs
              ++ [ {| hrole := user; content := JStr currentInput |} ])
  = map formatMessage msgs.
Proof. apply removelast_last. Qed.

End ChatFacts.

(* ================================================================== *)
(** * The page and the route together *)
(* ================================================================== *)

Module RoundTrip.
Import JS JSFacts Gemini GeminiSpec GeminiFacts Route RouteSpec RouteFacts RoundTripSpec.

Local Open Scope string_scope.
Local Open Scope list_scope.

Lemma historyItem_sent (msg : ChatPage.Message) (s : string) :
  ChatPage.text msg = JStr s ->
  historyItem (ChatPage.historyEntry (ChatPage.formatMessage msg))
  = Some (serverEntry msg).
Proof.
  destruct msg as [r t ts ie]. cbn. intros ->. destruct r; reflexivity.
Qed.

Lemma historyItems_sent (msgs : list ChatPage.Message) (rest : list JSON) :
  Forall (fun msg => exists s, ChatPage.text msg = JStr s) msgs ->
  historyItems (map ChatPage.historyEntry (map ChatPage.formatMessage msgs) ++ rest)
  = map serverEntry msgs ++ historyItems rest
  /\ forallb isValidHistoryItem
       (map ChatPage.historyEntry (map ChatPage.formatMessage msgs) ++ rest)
     = forallb isValidHistoryItem rest.
Proof.
  induction 1 as [| msg msgs [s Hs] _ [IH1 IH2]]; [split; reflexivity |].
  cbn [map app historyItems forallb]. unfold isValidHistoryItem at 1.
  rewrite (historyItem_sent msg s Hs), IH1, IH2. split; reflexivity.
Qed.

Lemma toGeminiMessage_serverEntry (msg : ChatPage.Message) (s : string) :
  ChatPage.text msg = JStr s ->
  toGeminiMessage (serverEntry msg) = providerTurn msg.
Proof.
  destruct msg as [r t ts ie]. cbn. intros ->. destruct r; reflexivity.
Qed.

(** The body that the page sends for a non-blank input, over a session whose
    texts are strings, passes the three rules, and the provider is called
    once, statefully, seeded with the system prompt, the acknowledgement and
    one turn per stored turn, in order; the new message travels once, as the
    message sent. *)
Lemma page_request_reaches_provider eng provider now (st st' : ChatPage.State)
    (body_ : JSON) :
  ChatPage.sendMessage_begin now st = Some (st', body_) ->
  Forall (fun msg => exists s, ChatPage.text msg = JStr s) (ChatPage.messages st) ->
  fst (POST eng provider (inr body_))
  = [ startChat_sendMessage flash
        {| history :=
             {| grole := guser; parts := [ {| text := JStr ChatPage.systemPrompt |} ] |}
             :: {| grole := model; parts := [ {| text := JStr acknowledgement |} ] |}
             :: map providerTurn (ChatPage.messages st);
           generationConfig := Some fixedConfig |}
        (ChatPage.trim (ChatPage.input st)) ].
Proof.
  intros Hb Htxt.
  destruct (ChatFacts.sendMessage_begin_inv _ _ _ _ Hb) as (Hne & Hl & _).
  rewrite (ChatFacts.sendMessage_begin_accepts now st Hne Hl) in Hb.
  injection Hb as _ <-.
  rewrite POST_unfold. unfold ChatPage.requestBody, POST_parsed.
  cbn [getProp assoc String.eqb Ascii.eqb Bool.eqb andb truthy_opt typeof_string
       asString isArray arrayItems negb orb].
  rewrite (truthy_JStr_nonempty _ Hne). cbn [truthy negb andb orb].
  rewrite map_app. cbn [map].
  destruct (historyItems_sent (ChatPage.messages st)
              [ChatPage.historyEntry
                 {| ChatPage.hrole := ChatPage.user;
                    ChatPage.content := JStr (ChatPage.trim (ChatPage.input st)) |}]
              Htxt) as [-> ->].
  replace (forallb isValidHistoryItem
             [ChatPage.historyEntry
                {| ChatPage.hrole := ChatPage.user;
                   ChatPage.content := JStr (ChatPage.trim (ChatPage.input st)) |}])
    with true by reflexivity.
  cbn [negb]. rewrite andb_false_r. cbn [fst].
  rewrite multi_turn_calls by (destruct (ChatPage.messages st); discriminate).
  replace (historyItems
             [ChatPage.historyEntry
                {| ChatPage.hrole := ChatPage.user;
                   ChatPage.content := JStr (ChatPage.trim (ChatPage.input st)) |}])
    with [ {| role := user; content := ChatPage.trim (ChatPage.input st) |} ]
    by reflexivity.
  unfold seedHistory.
  replace (truthy (JStr ChatPage.systemPrompt)) with true by reflexivity.
  rewrite removelast_last, <- (map_ext _ _ toGeminiMessage_spec), map_map.
  cbn [app]. do 5 f_equal.
  apply map_ext_in. intros msg Hin.
  rewrite Forall_forall in Htxt. destruct (Htxt msg Hin) as [s Hs].
  exact (toGeminiMessage_serverEntry msg s Hs).
Qed.

End RoundTrip.

(* ================================================================== *)
(** * The relay formatter: further properties *)
(* ================================================================== *)

Module GeminiMore.
Import JS JSFacts Gemini GeminiSpec GeminiFacts ContextSpec.

Local Open Scope string_scope.

Lemma append_assoc (a b c : string) : (a ++ b) ++ c = a ++ (b ++ c).
Proof. induction a as [| ch a IH]; cbn; [reflexivity | now rewrite IH]. Qed.

Lemma append_nil_r (a : string) : a ++ "" = a.
Proof. induction a as [| ch a IH]; cbn; [reflexivity | now rewrite IH]. Qed.

Lemma concat_cons (x : string) (xs : list string) :
  String.concat "" (x :: xs) = x ++ String.concat "" xs.
Proof. destruct xs; cbn; [now rewrite append_nil_r | reflexivity]. Qed.

Lemma appendContextLine_spec (acc : string) (e : MessageHistory) :
  appendContextLine acc e = acc ++ contextLine e.
Proof. destruct e as [[] c]; reflexivity. Qed.

(** The [forEach] loop appends the transcript to what was there. *)
Lemma forEach_transcript (h : list MessageHistory) (acc : string) :
  fold_left appendContextLine h acc
  = acc ++ String.concat "" (map contextLine h).
Proof.
  revert acc. induction h as [| e h IH]; intros acc.
  - cbn. now rewrite append_nil_r.
  - cbn [fold_left map]. rewrite IH, appendContextLine_spec, concat_cons.
    apply append_assoc.
Qed.

Lemma withContext_calls eng provider m h (sp : option string) :
  fst (getGeminiResponseWithContext eng provider m h (promptValue sp))
  = [ generateContent pro (contextPromptOf (preambleOf sp) h m) ].
Proof.
  unfold getGeminiResponseWithContext, getGeminiResponseWithContext_try.
  unfold contextPromptOf.
  destruct sp as [s |]; cbn [promptValue truthy ToString preambleOf];
    [destruct (String.eqb s ""); cbn [negb] |];
    (destruct h as [| e h];
     [ reflexivity
     | cbn [length Nat.ltb Nat.leb fst]; rewrite forEach_transcript;
       cbn [String.append]; repeat rewrite append_assoc; reflexivity ]).
Qed.

(** X1: [getGeminiResponseWithContext] places exactly one call, the
    single-shot one on the model "gemini-pro", whose prompt is the system
    prompt and a blank line (when the prompt is neither null nor empty), then
    for a non-empty history the heading "Previous conversation:" and one
    line "User: ..." or "Assistant: ..." per entry, the last entry included,
    and a blank line, then "User: ", the message and "Assistant:" on the
    next line. *)
Theorem withContext_prompt eng provider (m : string)
    (h : list MessageHistory) (sp : option string) :
  fst (getGeminiResponseWithContext eng provider m h (promptValue sp))
  = [ generateContent
        {| modelName := "gemini-pro"; modelGenerationConfig := None |}
        (preambleOf sp
         ++ match h with
            | [] => ""
            | _ :: _ =>
                "Previous conversation:" ++ LF
                ++ String.concat "" (map contextLine h) ++ LF
            end
         ++ "User: " ++ m ++ LF ++ "Assistant:") ].
Proof. apply withContext_calls. Qed.

(** X2: [getGeminiResponse] places at most one call; its result is the text
    the provider answered on that call, unchanged, and in every other case
    (the provider threw, or no call could be placed) the throw of the one
    [Error] "Failed to get response from Gemini". *)
Theorem getGeminiResponse_result eng provider (m : string)
    (h : list MessageHistory) (sp : JSON) :
  snd (getGeminiResponse eng provider m h sp)
  = match fst (getGeminiResponse eng provider m h sp) with
    | [call] =>
        match provider call with
        | inr t => inr t
        | inl _ => inl (ThrownError "Failed to get response from Gemini")
        end
    | _ => inl (ThrownError "Failed to get response from Gemini")
    end
  /\ (length (fst (getGeminiResponse eng provider m h sp)) <= 1)%nat.
Proof.
  unfold getGeminiResponse, getGeminiResponse_try.
  destruct (0 <? length h)%nat.
  - cbn. split; [destruct (provider _); reflexivity | apply Nat.le_refl].
  - destruct (truthy sp); [destruct (ToString eng sp) |]; cbn;
      (split; [try destruct (provider _); reflexivity | auto]).
Qed.

(** X3: [getGeminiResponseWithContext], whatever the history, never opens a
    stateful chat and never passes generation parameters; it places at most
    one call, and its result is the provider's text on that call or the throw
    of the [Error] "Failed to get response from Gemini". *)
Theorem withContext_result eng provider (m : string)
    (h : list MessageHistory) (sp : JSON) :
  forallb (fun c => negb (is_stateful_call c)
                    && match call_generationConfig c with
                       | None => true
                       | Some _ => false
                       end)
          (fst (getGeminiResponseWithContext eng provider m h sp)) = true
  /\ (length (fst (getGeminiResponseWithContext eng provider m h sp)) <= 1)%nat
  /\ snd (getGeminiResponseWithContext eng provider m h sp)
     = match fst (getGeminiResponseWithContext eng provider m h sp) with
       | [call] =>
           match provider call with
           | inr t => inr t
           | inl _ => inl (ThrownError "Failed to get response from Gemini")
           end
       | _ => inl (ThrownError "Failed to get response from Gemini")
       end.
Proof.
  unfold getGeminiResponseWithContext, getGeminiResponseWithContext_try.
  destruct (truthy sp); [destruct (ToString eng sp) |]; cbn;
    (split; [reflexivity | split; [auto |]]);
    try destruct (provider _); reflexivity.
Qed.

(** X4: the last entry of a non-empty history never reaches the provider and
    is not compared with the message: two histories that differ in their last
    entry only give the same call and the same result. *)
Theorem last_entry_ignored eng provider (m : string)
    (h : list MessageHistory) (e1 e2 : MessageHistory) (sp : JSON) :
  getGeminiResponse eng provider m (h ++ [e1]) sp
  = getGeminiResponse eng provider m (h ++ [e2]) sp.
Proof.
  unfold getGeminiResponse, getGeminiResponse_try.
  rewrite !length_app, !slice_drop_last, !removelast_last.
  cbn [length]. rewrite Nat.add_1_r. reflexivity.
Qed.

End GeminiMore.

(* ================================================================== *)
(** * The route: further properties *)
(* ================================================================== *)

Module RouteMore.
Import JS JSFacts Gemini GeminiSpec GeminiFacts Route RouteSpec RouteFacts.

Local Open Scope string_scope.

(** X5: an entry of [history] passes rule 3 exactly when it is an object
    whose [role] is the string "user" or "assistant" and whose [content] is a
    string; null, arrays, primitives and any other role are refused, and
    further properties of the object do not matter. *)
Theorem valid_history_item_iff (item : JSON) :
  isValidHistoryItem item = true
  <-> exists fields r c,
        item = JObj fields
        /\ assoc "role" fields = Some (JStr r)
        /\ (r = "user" \/ r = "assistant")
        /\ assoc "content" fields = Some (JStr c).
Proof.
  unfold isValidHistoryItem, historyItem. split.
  - destruct item as [| b | q | s | l | fields]; cbn; try discriminate.
    destruct (assoc "role" fields) as [[| b | q | r | l | f] |] eqn:Hr;
      try discriminate.
    destruct (String.eqb_spec r "user") as [-> | Hu];
      [| destruct (String.eqb_spec r "assistant") as [-> | Ha]];
      cbn; try discriminate;
      (destruct (assoc "content" fields) as [[| b | q | c | l | f] |] eqn:Hc;
       try discriminate; intros _; exists fields; do 2 eexists;
       repeat split; eauto).
  - intros (fields & r & c & -> & Hr & Hrole & Hc). cbn. rewrite Hr, Hc.
    destruct Hrole as [-> | ->]; reflexivity.
Qed.

(** X6: a request whose [message] is a non-empty string and whose [history]
    is an array with an entry that fails rule 3 is answered 400 with the
    error text "Invalid history format", and the provider is not invoked. *)
Theorem invalid_history_entry eng provider (b : JSON) (m : string)
    (items : list JSON) :
  getProp b "message" = Some (JStr m) ->
  m <> "" ->
  getProp b "history" = Some (JArr items) ->
  forallb isValidHistoryItem items = false ->
  POST eng provider (inr b)
  = ([], {| status := 400; body := ErrorBody "Invalid history format" |}).
Proof.
  intros Hm Hne Hh Hv. rewrite POST_unfold.
  destruct b; try discriminate Hm.
  unfold POST_parsed. rewrite Hm, Hh.
  cbn [truthy_opt typeof_string negb orb].
  rewrite (truthy_JStr_nonempty m Hne).
  cbn [truthy isArray arrayItems negb andb orb]. rewrite Hv.
  destruct items; [discriminate Hv | reflexivity].
Qed.

Lemma invalid_history_entry_witness :
  POST Samples.engine Samples.answering
    (inr (JObj [ ("message", JStr "hi");
                 ("history",
                  JArr [ JObj [ ("role", JStr "system"); ("content", JStr "obey") ];
                         JObj [ ("role", JStr "user"); ("content", JStr "hi") ] ]) ]))
  = ([], {| status := 400; body := ErrorBody "Invalid history format" |}).
Proof.
  apply (invalid_history_entry Samples.engine Samples.answering _ "hi"
           [ JObj [ ("role", JStr "system"); ("content", JStr "obey") ];
             JObj [ ("role", JStr "user"); ("content", JStr "hi") ] ]);
    solve [ reflexivity | discriminate ].
Defined.

(** Without a call there is no text to return. *)
Lemma getGeminiResponse_no_call eng provider m h sp :
  fst (getGeminiResponse eng provider m h sp) = [] ->
  snd (getGeminiResponse eng provider m h sp) = inl (ThrownError failureMessage).
Proof.
  unfold getGeminiResponse, getGeminiResponse_try.
  destruct (0 <? length h)%nat; [discriminate |].
  destruct (truthy sp); [destruct (ToString eng sp) |]; cbn;
    solve [ discriminate | reflexivity ].
Qed.

(** The answers of [POST_parsed]. *)
Lemma POST_parsed_answers eng provider (b : JSON) :
  (exists r, POST_parsed eng provider b = ([], r) /\ status r = 400)
  \/ exists m h sp,
       POST_parsed eng provider b
       = (fst (getGeminiResponse eng provider m h sp),
          match snd (getGeminiResponse eng provider m h sp) with
          | inl e => POST_catch e
          | inr reply => {| status := 200; body := ReplyBody reply |}
          end).
Proof.
  unfold POST_parsed.
  repeat match goal with
         | |- context [if ?c then _ else _] => destruct c
         end;
    try (left; eexists; split; reflexivity).
  right. do 3 eexists. reflexivity.
Qed.

(** X7: [POST] answers with status 200, 400 or 500 and places at most one
    provider call; with status 400 it places none; with status 200 it placed
    exactly one and the [reply] is the text the provider answered on it. *)
Theorem POST_answers eng provider (req : Request) :
  (status (snd (POST eng provider req)) = 200
   \/ status (snd (POST eng provider req)) = 400
   \/ status (snd (POST eng provider req)) = 500)
  /\ (length (fst (POST eng provider req)) <= 1)%nat
  /\ (status (snd (POST eng provider req)) = 400 ->
      fst (POST eng provider req) = [])
  /\ (status (snd (POST eng provider req)) = 200 ->
      exists call t,
        fst (POST eng provider req) = [call]
        /\ provider call = inr t
        /\ body (snd (POST eng provider req)) = ReplyBody t).
Proof.
  rewrite POST_unfold.
  assert (Hcatch : forall e, status (POST_catch e) = 500)
    by (intros []; reflexivity).
  assert (Hthrown : forall e : Thrown,
    (status (snd (@nil ProviderCall, POST_catch e)) = 200
     \/ status (snd (@nil ProviderCall, POST_catch e)) = 400
     \/ status (snd (@nil ProviderCall, POST_catch e)) = 500)
    /\ (length (fst (@nil ProviderCall, POST_catch e)) <= 1)%nat
    /\ (status (snd (@nil ProviderCall, POST_catch e)) = 400 ->
        fst (@nil ProviderCall, POST_catch e) = [])
    /\ (status (snd (@nil ProviderCall, POST_catch e)) = 200 ->
        exists call t,
          fst (@nil ProviderCall, POST_catch e) = [call]
          /\ provider call = inr t
          /\ body (snd (@nil ProviderCall, POST_catch e)) = ReplyBody t)).
  { intros e. cbn [fst snd length]. rewrite Hcatch.
    repeat split; auto; discriminate. }
  assert (Hparsed : forall b,
    (status (snd (POST_parsed eng provider b)) = 200
     \/ status (snd (POST_parsed eng provider b)) = 400
     \/ status (snd (POST_parsed eng provider b)) = 500)
    /\ (length (fst (POST_parsed eng provider b)) <= 1)%nat
    /\ (status (snd (POST_parsed eng provider b)) = 400 ->
        fst (POST_parsed eng provider b) = [])
    /\ (status (snd (POST_parsed eng provider b)) = 200 ->
        exists call t,
          fst (POST_parsed eng provider b) = [call]
          /\ provider call = inr t
          /\ body (snd (POST_parsed eng provider b)) = ReplyBody t)).
  { intros b.
    destruct (POST_parsed_answers eng provider b)
      as [(r & -> & Hr) | (m & h & sp & ->)].
    - cbn [fst snd length]. rewrite Hr. repeat split; auto; discriminate.
    - cbn [fst snd].
      destruct (getGeminiResponse_calls eng provider m h sp) as [Hc | [call Hc]].
      + rewrite (getGeminiResponse_no_call _ _ _ _ _ Hc), Hc.
        cbn [POST_catch failureMessage status length].
        repeat split; auto; discriminate.
      + rewrite (getGeminiResponse_outcome _ _ _ _ _ _ Hc), Hc.
        destruct (provider call) as [e | t] eqn:Hp; cbn [POST_catch status body length].
        * repeat split; auto; discriminate.
        * repeat split; auto; try discriminate.
          intros _. exists call, t. auto. }
  destruct req as [e | b]; [apply Hthrown |].
  destruct b; try apply Hparsed. apply Hthrown.
Qed.

Lemma POST_answers_witness :
  fst (POST Samples.engine Samples.answering
         (inr (JObj [ ("message", JStr "hi"); ("history", JStr "[]") ]))) = []
  /\ exists call t,
       fst (POST Samples.engine Samples.answering (inr (JObj [("message", JStr "hi")])))
       = [call]
       /\ Samples.answering call = inr t
       /\ body (snd (POST Samples.engine Samples.answering
                       (inr (JObj [("message", JStr "hi")]))))
          = ReplyBody t.
Proof.
  split.
  - apply (POST_answers Samples.engine Samples.answering
             (inr (JObj [ ("message", JStr "hi"); ("history", JStr "[]") ]))).
    reflexivity.
  - apply (POST_answers Samples.engine Samples.answering
             (inr (JObj [("message", JStr "hi")]))).
    reflexivity.
Defined.

(** X8: when [POST] places a call and the provider answers it with a text,
    the response is 200 with that text as [reply], the empty text
    included. *)
Theorem POST_reply eng provider (req : Request) (call : ProviderCall) (t : string) :
  fst (POST eng provider req) = [call] ->
  provider call = inr t ->
  snd (POST eng provider req) = {| status := 200; body := ReplyBody t |}.
Proof.
  rewrite POST_unfold. intros Hc Ht.
  destruct req as [e | b]; [discriminate Hc |].
  assert (Hp : fst (POST_parsed eng provider b) = [call] ->
               snd (POST_parsed eng provider b)
               = {| status := 200; body := ReplyBody t |}).
  { destruct (POST_parsed_answers eng provider b)
      as [(r & -> & _) | (m & h & sp & ->)]; [discriminate |].
    cbn [fst snd]. intros Hg.
    rewrite (getGeminiResponse_outcome _ _ _ _ _ _ Hg), Ht. reflexivity. }
  destruct b; try exact (Hp Hc). discriminate Hc.
Qed.

Lemma POST_reply_witness :
  snd (POST Samples.engine Samples.answering (inr (JObj [("message", JStr "hi")])))
  = {| status := 200; body := ReplyBody "Hello!" |}.
Proof.
  apply (POST_reply Samples.engine Samples.answering
           (inr (JObj [("message", JStr "hi")]))
           (generateContent flash "hi") "Hello!");
    reflexivity.
Defined.

(** X9: the answer of [POST] to a parsed body that is not null depends on
    the body's [message], [history] and [systemPrompt] only: two bodies that
    agree on these three get the same calls and the same response. *)
Theorem POST_reads_three_properties eng provider (b1 b2 : JSON) :
  b1 <> JNull ->
  b2 <> JNull ->
  getProp b1 "message" = getProp b2 "message" ->
  getProp b1 "history" = getProp b2 "history" ->
  getProp b1 "systemPrompt" = getProp b2 "systemPrompt" ->
  POST eng provider (inr b1) = POST eng provider (inr b2).
Proof.
  intros H1 H2 Hm Hh Hs. rewrite !POST_unfold.
  assert (Hp : POST_parsed eng provider b1 = POST_parsed eng provider b2).
  { unfold POST_parsed. rewrite Hm, Hh, Hs. reflexivity. }
  destruct b1; try congruence; destruct b2; congruence.
Qed.

Lemma POST_reads_three_properties_witness :
  POST Samples.engine Samples.answering
    (inr (JObj [ ("message", JStr "hi"); ("temperature", JNum (2 # 1)) ]))
  = POST Samples.engine Samples.answering (inr (JObj [ ("message", JStr "hi") ])).
Proof.
  apply (POST_reads_three_properties Samples.engine Samples.answering
           (JObj [ ("message", JStr "hi"); ("temperature", JNum (2 # 1)) ])
           (JObj [ ("message", JStr "hi") ]));
    solve [ reflexivity | discriminate ].
Defined.

(** X10: a [history] that is present but falsy (null, false, 0 or the empty
    string) is treated as no history: with a non-empty string [message] the
    request passes the three rules and [POST] proceeds exactly as
    [getGeminiResponse] does on the empty history, so no stateful call is
    made. *)
Theorem falsy_history_is_no_history eng provider (b : JSON) (m : string) (h : JSON) :
  getProp b "message" = Some (JStr m) ->
  m <> "" ->
  getProp b "history" = Some h ->
  truthy h = false ->
  fst (POST eng provider (inr b))
  = fst (getGeminiResponse eng provider m []
           (match getProp b "systemPrompt" with
            | None => JNull
            | Some sp => sp
            end))
  /\ existsb is_stateful_call (fst (POST eng provider (inr b))) = false.
Proof.
  intros Hm Hne Hh Ht. rewrite POST_unfold.
  destruct b; try discriminate Hm.
  unfold POST_parsed. rewrite Hm, Hh.
  cbn [truthy_opt typeof_string negb orb asString].
  rewrite (truthy_JStr_nonempty m Hne), Ht. cbn [negb andb orb fst].
  assert (Hi : arrayItems h = []) by (destruct h; try reflexivity; discriminate Ht).
  rewrite Hi. cbn [historyItems]. split; [reflexivity |].
  unfold getGeminiResponse, getGeminiResponse_try. cbn [length Nat.ltb Nat.leb].
  match goal with
  | |- context [truthy ?sp] =>
      destruct (truthy sp); [destruct (ToString eng sp) |]; reflexivity
  end.
Qed.

Lemma falsy_history_is_no_history_witness :
  fst (POST Samples.engine Samples.answering
         (inr (JObj [ ("message", JStr "hi"); ("history", JNull) ])))
  = fst (getGeminiResponse Samples.engine Samples.answering "hi" [] JNull)
  /\ existsb is_stateful_call
       (fst (POST Samples.engine Samples.answering
               (inr (JObj [ ("message", JStr "hi"); ("history", JNull) ]))))
     = false.
Proof.
  apply (falsy_history_is_no_history Samples.engine Samples.answering
           (JObj [ ("message", JStr "hi"); ("history", JNull) ]) "hi" JNull);
    solve [ reflexivity | discriminate ].
Defined.

End RouteMore.

(* ================================================================== *)
(** * The conversation store: further properties *)
(* ================================================================== *)

Module ChatMore.
Import JS JSFacts ChatPage ChatSpec ChatFacts SessionSpec.

Local Open Scope string_scope.
Local Open Scope list_scope.

(** The turn that the [try]/[catch] appends is an assistant turn stamped with
    the second clock reading. *)
Lemma settled_turn now res :
  exists reply,
    (forall st, messages (sendMessage_settle now res st) = messages st ++ [reply])
    /\ role reply = assistant
    /\ timestamp reply = now
    /\ (isError reply = None \/ reply = errorTurn now).
Proof.
  unfold sendMessage_settle.
  destruct (sendMessage_try now res) as [bot |] eqn:Ht.
  - exists bot. split; [reflexivity |].
    unfold sendMessage_try in Ht.
    repeat match type of Ht with
           | match ?x with _ => _ end = _ => destruct x; try discriminate Ht
           | (if ?c then _ else _) = _ => destruct c; try discriminate Ht
           end.
    injection Ht as <-. cbn. auto.
  - exists (errorTurn now). repeat split; auto.
Qed.

(** X11: a run of [sendMessage] that passes the guard always ends, whatever
    [fetch] does, with the session extended by the user's turn and exactly
    one assistant turn stamped with the second clock reading, the input
    cleared and [isLoading] false again. *)
Theorem sendMessage_completes now1 now2 fetch (st : State) :
  trim (input st) <> "" ->
  isLoading st = false ->
  exists reply,
    messages (sendMessage now1 now2 fetch st)
    = messages st
      ++ [ {| role := user; text := JStr (trim (input st));
              timestamp := now1; isError := None |};
           reply ]
    /\ role reply = assistant
    /\ timestamp reply = now2
    /\ input (sendMessage now1 now2 fetch st) = ""
    /\ isLoading (sendMessage now1 now2 fetch st) = false.
Proof.
  intros Hne Hl. unfold sendMessage.
  rewrite (sendMessage_begin_accepts now1 st Hne Hl).
  match goal with
  | |- context [sendMessage_settle now2 ?res _] =>
      destruct (settled_turn now2 res) as (reply & Hm & Hr & Hts & _)
  end.
  exists reply. rewrite Hm. cbn [messages]. rewrite <- app_assoc.
  repeat split; auto.
Qed.

Lemma sendMessage_completes_witness :
  exists reply,
    messages (sendMessage "2025-01-01T00:00:00.000Z" "2025-01-01T00:00:01.000Z"
                (fun _ => FetchRejected) (Samples.typing "  hello "))
    = [ {| role := user; text := JStr "hello";
           timestamp := "2025-01-01T00:00:00.000Z"; isError := None |};
        reply ]
    /\ role reply = assistant
    /\ timestamp reply = "2025-01-01T00:00:01.000Z"
    /\ input (sendMessage "2025-01-01T00:00:00.000Z" "2025-01-01T00:00:01.000Z"
                (fun _ => FetchRejected) (Samples.typing "  hello ")) = ""
    /\ isLoading (sendMessage "2025-01-01T00:00:00.000Z" "2025-01-01T00:00:01.000Z"
                    (fun _ => FetchRejected) (Samples.typing "  hello ")) = false.
Proof.
  apply (sendMessage_completes "2025-01-01T00:00:00.000Z" "2025-01-01T00:00:01.000Z"
           (fun _ => FetchRejected) (Samples.typing "  hello ")).
  - discriminate.
  - reflexivity.
Defined.

(** X12: a response with a 2xx status whose body is an object without an
    [error] property and with a truthy [reply] ends the run with the user's
    turn followed by an assistant turn that holds the reply as it came and
    is not marked as an error. *)
Theorem sendMessage_stores_reply now1 now2 fetch (st st' : State) (body : JSON)
    (status : Z) (fields : list (string * JSON)) (reply : JSON) :
  sendMessage_begin now1 st = Some (st', body) ->
  fetch body = FetchResponse status (Some (JObj fields)) ->
  200 <= status <= 299 ->
  assoc "error" fields = None ->
  assoc "reply" fields = Some reply ->
  truthy reply = true ->
  messages (sendMessage now1 now2 fetch st)
  = messages st
    ++ [ {| role := user; text := JStr (trim (input st));
            timestamp := now1; isError := None |};
         {| role := assistant; text := reply;
            timestamp := now2; isError := None |} ].
Proof.
  intros Hb Hf Hs He Hr Ht.
  apply (sendMessage_success now1 now2 fetch st st' body status fields reply);
    auto.
  unfold ok. lia.
Qed.

Lemma sendMessage_stores_reply_witness :
  messages (sendMessage "2025-01-01T00:00:00.000Z" "2025-01-01T00:00:01.000Z"
              (fun _ => FetchResponse 200 (Some (JObj [("reply", JStr "Hello!")])))
              (Samples.typing "  hello "))
  = [ {| role := user; text := JStr "hello";
         timestamp := "2025-01-01T00:00:00.000Z"; isError := None |};
      {| role := assistant; text := JStr "Hello!";
         timestamp := "2025-01-01T00:00:01.000Z"; isError := None |} ].
Proof.
  eapply (sendMessage_stores_reply
            "2025-01-01T00:00:00.000Z" "2025-01-01T00:00:01.000Z"
            (fun _ => FetchResponse 200 (Some (JObj [("reply", JStr "Hello!")])))
            (Samples.typing "  hello ") _ _ 200 [("reply", JStr "Hello!")]
            (JStr "Hello!"));
    solve [ reflexivity | lia ].
Defined.

(** X13: while a request is in flight every further [sendMessage] is
    refused, whatever has been typed meanwhile; once the request has settled,
    whatever its outcome, a non-blank input is accepted again. *)
Theorem single_flight now1 (st st' : State) (body : JSON) :
  sendMessage_begin now1 st = Some (st', body) ->
  (forall now value, sendMessage_begin now (setInput value st') = None)
  /\ (forall now2 res now value,
        trim value <> "" ->
        exists st'' body',
          sendMessage_begin now (setInput value (sendMessage_settle now2 res st'))
          = Some (st'', body')).
Proof.
  intros Hb.
  destruct (sendMessage_begin_inv _ _ _ _ Hb) as (Hne & Hl & _).
  rewrite (sendMessage_begin_accepts now1 st Hne Hl) in Hb.
  injection Hb as <- _. split.
  - intros now value. apply sendMessage_begin_rejects. right. reflexivity.
  - intros now2 res now value Hv. do 2 eexists.
    apply sendMessage_begin_accepts; [exact Hv | reflexivity].
Qed.

Lemma single_flight_witness :
  sendMessage_begin "2025-01-01T00:00:02.000Z"
    (setInput "again"
       {| messages :=
            [ {| role := user; text := JStr "hello";
                 timestamp := "2025-01-01T00:00:00.000Z"; isError := None |} ];
          input := ""; isLoading := true |}) = None.
Proof.
  eapply (proj1 (single_flight "2025-01-01T00:00:00.000Z"
                   (Samples.typing "  hello ") _ _ eq_refl)).
Defined.

(** Appending an exchange to a session of exchanges. *)
Lemma exchanges_app (l l' : list Message) :
  exchanges l = true -> exchanges (l ++ l') = exchanges l'.
Proof.
  enough (H : (exchanges l = true -> exchanges (l ++ l') = exchanges l')
              /\ (forall x, exchanges (x :: l) = true ->
                            exchanges ((x :: l) ++ l') = exchanges l'))
    by apply H.
  induction l as [| y l [IH1 IH2]].
  - split; [reflexivity | discriminate].
  - split.
    + apply IH2.
    + intros x. cbn [exchanges app].
      destruct (Role_eqb (role x) user && Role_eqb (role y) assistant);
        [| discriminate].
      exact IH1.
Qed.

(** One action keeps a settled session of exchanges. *)
Lemma act_keeps_exchanges (st : State) (a : Action) :
  exchanges (messages st) = true /\ isLoading st = false ->
  exchanges (messages (act st a)) = true /\ isLoading (act st a) = false.
Proof.
  intros [He Hl]. destruct a as [value | now1 now2 fetch |]; cbn [act].
  - split; assumption.
  - unfold sendMessage.
    destruct (sendMessage_begin now1 st) as [[st' body] |] eqn:Hb;
      [| split; assumption].
    destruct (sendMessage_begin_inv _ _ _ _ Hb) as (_ & _ & Hm).
    destruct (settled_turn now2 (fetch body)) as (reply & Hs & Hr & _).
    rewrite Hs, Hm, <- app_assoc, (exchanges_app _ _ He).
    cbn. rewrite Hr. split; reflexivity.
  - split; [reflexivity | exact Hl].
Qed.

(** X14: from the mounted page, after any sequence of typing, clearing and
    requests that each run to their end before the next action, the session
    is a sequence of exchanges (a user turn, then an assistant turn, and so
    on) and no request is in flight. *)
Theorem session_of_exchanges (actions : list Action) :
  exchanges (messages (run actions mounted)) = true
  /\ Nat.even (length (messages (run actions mounted))) = true
  /\ isLoading (run actions mounted) = false.
Proof.
  assert (Hinv : forall acts st,
             exchanges (messages st) = true /\ isLoading st = false ->
             exchanges (messages (run acts st)) = true
             /\ isLoading (run acts st) = false).
  { induction acts as [| a acts IH]; intros st H; [exact H |].
    cbn [run fold_left]. apply IH, act_keeps_exchanges, H. }
  assert (Heven : forall l : list Message,
             (exchanges l = true -> Nat.even (length l) = true)
             /\ (forall x, exchanges (x :: l) = true ->
                           Nat.even (length (x :: l)) = true)).
  { induction l as [| y l [IH1 IH2]].
    - split; [reflexivity | discriminate].
    - split; [apply IH2 |].
      intros x. cbn [exchanges length Nat.even].
      destruct (Role_eqb (role x) user && Role_eqb (role y) assistant);
        [exact IH1 | discriminate]. }
  destruct (Hinv actions mounted (conj eq_refl eq_refl)) as [He Hl].
  repeat split; [exact He | apply Heven, He | exact Hl].
Qed.

(** X15: if the chat is cleared while a request is in flight, the reply that
    settles later is appended to the cleared session: the session then holds
    that one assistant turn alone, without the user turn it answers. *)
Theorem clear_in_flight now1 now2 (res : FetchResult) (st st' : State) (body : JSON) :
  sendMessage_begin now1 st = Some (st', body) ->
  exists reply,
    messages (sendMessage_settle now2 res st')
    = messages st ++ [userTurn now1 st; reply]
    /\ messages (sendMessage_settle now2 res (clearChat st')) = [reply]
    /\ role reply = assistant.
Proof.
  intros Hb. destruct (sendMessage_begin_inv _ _ _ _ Hb) as (_ & _ & Hm).
  destruct (settled_turn now2 res) as (reply & Hs & Hr & _).
  exists reply. rewrite !Hs, Hm, <- app_assoc. cbn. auto.
Qed.

Lemma clear_in_flight_witness :
  exists reply,
    messages (sendMessage_settle "2025-01-01T00:00:01.000Z"
                (FetchResponse 200 (Some (JObj [("reply", JStr "Hello!")])))
                {| messages :=
                     [ {| role := user; text := JStr "hello";
                          timestamp := "2025-01-01T00:00:00.000Z";
                          isError := None |} ];
                   input := ""; isLoading := true |})
    = [ {| role := user; text := JStr "hello";
           timestamp := "2025-01-01T00:00:00.000Z"; isError := None |};
        reply ]
    /\ messages (sendMessage_settle "2025-01-01T00:00:01.000Z"
                   (FetchResponse 200 (Some (JObj [("reply", JStr "Hello!")])))
                   (clearChat
                      {| messages :=
                           [ {| role := user; text := JStr "hello";
                                timestamp := "2025-01-01T00:00:00.000Z";
                                isError := None |} ];
                         input := ""; isLoading := true |}))
       = [reply]
    /\ role reply = assistant.
Proof.
  eapply (clear_in_flight "2025-01-01T00:00:00.000Z" "2025-01-01T00:00:01.000Z"
            (FetchResponse 200 (Some (JObj [("reply", JStr "Hello!")])))
            (Samples.typing "  hello ")).
  reflexivity.
Defined.

(** X16: the send button is disabled exactly when [sendMessage] would return
    at its guard; so [sendMessage] reached another way (the Enter key) while
    the button is disabled changes nothing, and a click on the enabled
    button always records the user's turn. *)
Theorem button_matches_guard now1 now2 fetch (st : State) :
  (sendDisabled st = true <-> sendMessage_begin now1 st = None)
  /\ (sendDisabled st = true -> sendMessage now1 now2 fetch st = st)
  /\ (sendDisabled st = false ->
      exists reply,
        messages (sendMessage now1 now2 fetch st)
        = messages st ++ [userTurn now1 st; reply]).
Proof.
  assert (Hiff : sendDisabled st = true <-> sendMessage_begin now1 st = None).
  { unfold sendDisabled, sendMessage_begin.
    destruct (negb (truthy (JStr (trim (input st)))) || isLoading st);
      split; congruence. }
  split; [exact Hiff |]. split.
  - intros Hd. unfold sendMessage. rewrite (proj1 Hiff Hd). reflexivity.
  - intros Hd. unfold sendDisabled in Hd.
    apply orb_false_elim in Hd as [Ht Hl].
    apply negb_false_iff, truthy_JStr in Ht.
    destruct (sendMessage_completes now1 now2 fetch st Ht Hl)
      as (reply & Hm & _).
    exists reply. exact Hm.
Qed.

Lemma button_matches_guard_witness :
  sendMessage "2025-01-01T00:00:00.000Z" "2025-01-01T00:00:01.000Z"
    (fun _ => FetchRejected) (Samples.typing "   ")
  = Samples.typing "   ".
Proof.
  apply (button_matches_guard "2025-01-01T00:00:00.000Z" "2025-01-01T00:00:01.000Z"
           (fun _ => FetchRejected) (Samples.typing "   ")).
  reflexivity.
Defined.

(** X17: the theme written to the storage is read back as the same theme on
    the next mount, whatever the system prefers; a stored value that is
    neither "dark" nor "light", or no stored value, yields the system's
    preference; and toggling twice restores the theme. *)
Theorem theme_round_trip (isDarkMode prefersDark : bool) (saved : string) :
  loadTheme (Some (savedThemeOf isDarkMode)) prefersDark = isDarkMode
  /\ loadTheme None prefersDark = prefersDark
  /\ (saved <> "dark" -> saved <> "light" ->
      loadTheme (Some saved) prefersDark = prefersDark)
  /\ toggleTheme (toggleTheme isDarkMode) = isDarkMode.
Proof.
  repeat split.
  - destruct isDarkMode; reflexivity.
  - intros Hd Hl. unfold loadTheme.
    apply String.eqb_neq in Hd, Hl. rewrite Hd, Hl. reflexivity.
  - apply negb_involutive.
Qed.

Lemma theme_round_trip_witness :
  loadTheme (Some "auto") true = true.
Proof.
  apply (theme_round_trip true true "auto"); discriminate.
Defined.

End ChatMore.

(* ================================================================== *)
(** * The page talking to the route *)
(* ================================================================== *)

Module EndToEnd.
Import JS JSFacts Gemini GeminiSpec GeminiFacts Route RouteSpec RouteFacts
       RouteMore RoundTripSpec RoundTrip TransportSpec.

Local Open Scope string_scope.
Local Open Scope list_scope.

(** The response of [POST] when it placed a call. *)
Lemma POST_on_call eng provider (req : Request) (call : ProviderCall) :
  fst (POST eng provider req) = [call] ->
  snd (POST eng provider req)
  = match provider call with
    | inr t => {| status := 200; body := ReplyBody t |}
    | inl _ => {| status := 500; body := ErrorBody failureMessage |}
    end.
Proof.
  rewrite POST_unfold. intros Hc.
  destruct req as [e | b]; [discriminate Hc |].
  assert (Hp : fst (POST_parsed eng provider b) = [call] ->
               snd (POST_parsed eng provider b)
               = match provider call with
                 | inr t => {| status := 200; body := ReplyBody t |}
                 | inl _ => {| status := 500; body := ErrorBody failureMessage |}
                 end).
  { destruct (POST_parsed_answers eng provider b)
      as [(r & -> & _) | (m & h & sp & ->)]; [discriminate |].
    cbn [fst snd]. intros Hg.
    rewrite (getGeminiResponse_outcome _ _ _ _ _ _ Hg).
    destruct (provider call); reflexivity. }
  destruct b; try exact (Hp Hc). discriminate Hc.
Qed.

(** X18: the request that the page sends for a non-blank input, over a
    session whose texts are strings, passes the three rules of the route and
    makes it place exactly one call: the stateful one, seeded with the page's
    system prompt, the acknowledgement and one turn per stored turn in
    order (error turns included), with the trimmed input as the message. The
    entry that repeats the new message is dropped, so it travels once. *)
Theorem page_request_is_relayed eng provider now (st st' : ChatPage.State)
    (body_ : JSON) :
  ChatPage.sendMessage_begin now st = Some (st', body_) ->
  Forall (fun msg => exists s, ChatPage.text msg = JStr s) (ChatPage.messages st) ->
  fst (POST eng provider (inr body_))
  = [ startChat_sendMessage flash
        {| history :=
             {| grole := guser; parts := [ {| text := JStr ChatPage.systemPrompt |} ] |}
             :: {| grole := model; parts := [ {| text := JStr acknowledgement |} ] |}
             :: map (fun msg =>
                       {| grole := match ChatPage.role msg with
                                   | ChatPage.assistant => model
                                   | ChatPage.user => guser
                                   end;
                          parts := [ {| text := ChatPage.text msg |} ] |})
                    (ChatPage.messages st);
           generationConfig := Some fixedConfig |}
        (ChatPage.trim (ChatPage.input st)) ].
Proof. apply page_request_reaches_provider. Qed.

Lemma page_request_is_relayed_witness :
  fst (POST Samples.engine Samples.answering
         (inr (ChatPage.requestBody "hello"
                 [ {| ChatPage.hrole := ChatPage.user;
                      ChatPage.content := JStr "hello" |} ])))
  = [ startChat_sendMessage flash
        {| history :=
             [ {| grole := guser; parts := [ {| text := JStr ChatPage.systemPrompt |} ] |};
               {| grole := model; parts := [ {| text := JStr acknowledgement |} ] |} ];
           generationConfig := Some fixedConfig |}
        "hello" ].
Proof.
  eapply (page_request_is_relayed Samples.engine Samples.answering
            "2025-01-01T00:00:00.000Z" (Samples.typing "  hello ")).
  - reflexivity.
  - constructor.
Defined.

(** What the page reads when the route answers its request. *)
Lemma fetchRoute_on_call eng provider (body_ : JSON) (call : ProviderCall) :
  fst (POST eng provider (inr body_)) = [call] ->
  fetchRoute eng provider body_
  = match provider call with
    | inr t => ChatPage.FetchResponse 200 (Some (JObj [ ("reply", JStr t) ]))
    | inl _ =>
        ChatPage.FetchResponse 500 (Some (JObj [ ("error", JStr failureMessage) ]))
    end.
Proof.
  intros Hc. unfold fetchRoute. rewrite (POST_on_call _ _ _ _ Hc).
  destruct (provider call); reflexivity.
Qed.

(** X19: when the page talks to this route, over a session whose texts are
    strings, a non-blank submission ends with the user's turn followed by the
    assistant's turn holding the provider's text when that text is not
    empty, and by the error turn when the provider throws or answers the
    empty text. *)
Theorem page_and_route eng provider now1 now2 (st : ChatPage.State) :
  ChatPage.trim (ChatPage.input st) <> "" ->
  ChatPage.isLoading st = false ->
  Forall (fun msg => exists s, ChatPage.text msg = JStr s) (ChatPage.messages st) ->
  ChatPage.messages (ChatPage.sendMessage now1 now2 (fetchRoute eng provider) st)
  = ChatPage.messages st
    ++ [ {| ChatPage.role := ChatPage.user;
            ChatPage.text := JStr (ChatPage.trim (ChatPage.input st));
            ChatPage.timestamp := now1; ChatPage.isError := None |};
         match provider (pageCall st) with
         | inr t =>
             if String.eqb t "" then
               {| ChatPage.role := ChatPage.assistant;
                  ChatPage.text := JStr ChatPage.errorText;
                  ChatPage.timestamp := now2; ChatPage.isError := Some true |}
             else
               {| ChatPage.role := ChatPage.assistant;
                  ChatPage.text := JStr t;
                  ChatPage.timestamp := now2; ChatPage.isError := None |}
         | inl _ =>
             {| ChatPage.role := ChatPage.assistant;
                ChatPage.text := JStr ChatPage.errorText;
                ChatPage.timestamp := now2; ChatPage.isError := Some true |}
         end ].
Proof.
  intros Hne Hl Htxt.
  pose proof (ChatFacts.sendMessage_begin_accepts now1 st Hne Hl) as Hb.
  pose proof (page_request_reaches_provider eng provider now1 st _ _ Hb Htxt) as Hc.
  fold (pageCall st) in Hc.
  pose proof (fetchRoute_on_call eng provider _ _ Hc) as Hf.
  unfold ChatPage.sendMessage. rewrite Hb.
  unfold ChatPage.sendMessage_settle. rewrite Hf.
  cbn [ChatPage.messages]. rewrite <- app_assoc. cbn [app].
  do 3 f_equal.
  destruct (provider (pageCall st)) as [e | t]; [reflexivity |].
  cbn. destruct (String.eqb t ""); reflexivity.
Qed.

Lemma page_and_route_witness :
  ChatPage.messages
    (ChatPage.sendMessage "2025-01-01T00:00:00.000Z" "2025-01-01T00:00:01.000Z"
       (fetchRoute Samples.engine Samples.answering) (Samples.typing "  hello "))
  = [ {| ChatPage.role := ChatPage.user; ChatPage.text := JStr "hello";
         ChatPage.timestamp := "2025-01-01T00:00:00.000Z";
         ChatPage.isError := None |};
      {| ChatPage.role := ChatPage.assistant; ChatPage.text := JStr "Hello!";
         ChatPage.timestamp := "2025-01-01T00:00:01.000Z";
         ChatPage.isError := None |} ].
Proof.
  apply (page_and_route Samples.engine Samples.answering
           "2025-01-01T00:00:00.000Z" "2025-01-01T00:00:01.000Z"
           (Samples.typing "  hello ")).
  - discriminate.
  - reflexivity.
  - constructor.
Defined.

(** X20: the texts that the page stores stay strings as long as it talks to
    this route: the user's text is the trimmed input, the error text is
    fixed, and a [reply] of the route is a string. So the entries the page
    sends next pass rule 3 again. *)
Theorem texts_stay_strings eng provider now1 now2 (st : ChatPage.State) :
  Forall (fun msg => exists s, ChatPage.text msg = JStr s) (ChatPage.messages st) ->
  Forall (fun msg => exists s, ChatPage.text msg = JStr s)
    (ChatPage.messages (ChatPage.sendMessage now1 now2 (fetchRoute eng provider) st)).
Proof.
  intros Htxt. unfold ChatPage.sendMessage.
  destruct (ChatPage.sendMessage_begin now1 st) as [[st' body_] |] eqn:Hb;
    [| exact Htxt].
  destruct (ChatFacts.sendMessage_begin_inv _ _ _ _ Hb) as (_ & _ & Hm).
  unfold ChatPage.sendMessage_settle. cbn [ChatPage.messages].
  rewrite Hm. repeat (apply Forall_app; split); [exact Htxt | |].
  - repeat constructor. eexists. reflexivity.
  - repeat constructor. unfold fetchRoute.
    destruct (snd (POST eng provider (inr body_))) as [code [reply | error]];
      cbn [status body responseJSON ChatPage.sendMessage_try].
    + destruct (negb (ChatPage.ok code)); [eexists; reflexivity |].
      cbn. destruct (String.eqb reply ""); cbn; eexists; reflexivity.
    + destruct (negb (ChatPage.ok code)); eexists; reflexivity.
Qed.

Lemma texts_stay_strings_witness :
  Forall (fun msg => exists s, ChatPage.text msg = JStr s)
    (ChatPage.messages
       (ChatPage.sendMessage "2025-01-01T00:00:00.000Z" "2025-01-01T00:00:01.000Z"
          (fetchRoute Samples.engine Samples.answering) (Samples.typing "  hello "))).
Proof.
  apply (texts_stay_strings Samples.engine Samples.answering
           "2025-01-01T00:00:00.000Z" "2025-01-01T00:00:01.000Z"
           (Samples.typing "  hello ")).
  constructor.
Defined.

End EndToEnd.
